(** * Orion MCP client: a shallow embedding of [orion_mcp_client.py]

    The client opens a streamable-HTTP connection to the server, performs
    the MCP handshake, issues one request (a tool call or a discovery
    call) and decodes the reply.  The transport library ([mcp]) and the
    JSON decoder ([json.loads]) are not part of the client: they appear
    here as parameters ([transport], [json_loads]).

    Python values are untagged, and so is the model: [_call_tool] returns
    a [pyval], exactly as the method returns [Any].  Output written with
    [print] is not modelled. *)

From Stdlib Require Import ZArith Ascii String List Floats.SpecFloat.
From stdpp Require Import base option list strings.

Open Scope string_scope.
Open Scope list_scope.

(** ** Exceptions *)

#[local] Set Warnings "-register-all".

(** A raised exception: the name of its class and its message; an
    [ExceptionGroup] carries the exceptions it groups. *)
Inductive exn : Type :=
| Exn (class msg : string)
| ExceptionGroup (msg : string) (exceptions : list exn).

Definition exn_class (e : exn) : string :=
  match e with
  | Exn class _ => class
  | ExceptionGroup _ _ => "ExceptionGroup"
  end.

Definition exn_msg (e : exn) : string :=
  match e with
  | Exn _ msg => msg
  | ExceptionGroup msg _ => msg
  end.

(** [except json.JSONDecodeError]: the class has no subclass. *)
Definition is_JSONDecodeError (e : exn) : bool :=
  String.eqb (exn_class e) "JSONDecodeError".

(** [isinstance(e, ConnectionError)] for Python's builtin hierarchy. *)
Definition ConnectionError_classes : list string :=
  [ "ConnectionError"; "BrokenPipeError"; "ConnectionAbortedError";
    "ConnectionRefusedError"; "ConnectionResetError" ].

Definition is_ConnectionError (e : exn) : bool :=
  existsb (String.eqb (exn_class e)) ConnectionError_classes.

Inductive outcome (A : Type) : Type :=
| Return (a : A)
| Raise (e : exn).
Arguments Return {A} a.
Arguments Raise {A} e.

(** ** The objects of the [mcp] package that the client reads *)

Module mcp.

(** A content block.  The client probes it with [hasattr]; an absent
    attribute is [None] here.  [TextContent] has [text]; [ImageContent]
    and [AudioContent] have [data] and [mimeType]; [EmbeddedResource]
    has none of the three. *)
Record ContentBlock := {
  type : string;
  text : option string;
  data : option string;
  mimeType : option string
}.

Record CallToolResult := {
  content : list ContentBlock;
  isError : bool
}.

End mcp.

(** ** Python values *)

Inductive pyval : Type :=
| PyNone
| PyBool (b : bool)
| PyInt (n : Z)
| PyFloat (f : spec_float)
| PyStr (s : string)
| PyList (xs : list pyval)
| PyDict (kvs : list (string * pyval))
| PyCallToolResult (r : mcp.CallToolResult).

(** A [dict] with string keys, in insertion order. *)
Definition pydict : Type := list (string * pyval).

Fixpoint dict_get (k : string) (d : pydict) : option pyval :=
  match d with
  | [] => None
  | (k', v) :: d' => if String.eqb k k' then Some v else dict_get k d'
  end.

Definition dict_contains (k : string) (d : pydict) : bool :=
  match dict_get k d with Some _ => true | None => false end.

(** [d[k] = v]: overwrite in place, or append a new key. *)
Fixpoint dict_setitem (k : string) (v : pyval) (d : pydict) : pydict :=
  match d with
  | [] => [(k, v)]
  | (k', v') :: d' =>
      if String.eqb k k' then (k, v) :: d' else (k', v') :: dict_setitem k v d'
  end.

Definition dict_keys (d : pydict) : list string := map fst d.

(** [x or y] on an [Optional[Dict]]: [None] and the empty dict are falsy. *)
Definition dict_or (x : option pydict) (y : pydict) : pydict :=
  match x with
  | Some (kv :: d) => kv :: d
  | Some [] => y
  | None => y
  end.

(** Truthiness of an [Optional[str]]. *)
Definition str_truthy (x : option string) : bool :=
  match x with
  | Some (String _ _) => true
  | Some EmptyString => false
  | None => false
  end.

Definition py_optstr (x : option string) : pyval :=
  match x with Some s => PyStr s | None => PyNone end.

Definition hasattr {A : Type} (attr : option A) : bool :=
  match attr with Some _ => true | None => false end.

(** [getattr(obj, name, default)]. *)
Definition getattr {A : Type} (attr : option A) (dflt : A) : A :=
  match attr with Some a => a | None => dflt end.

(** ** Discovery records of the [mcp] package *)

Module Tool.
(** [mcp.types.Tool]; [title] is one of the attributes the client
    never reads. *)
Record t := {
  name : string;
  title : option string;
  description : option string;
  inputSchema : pydict
}.
End Tool.

Module Resource.
Record t := {
  uri : string;
  name : string;
  description : option string;
  mimeType : option string
}.
End Resource.

Record ListToolsResult := { tools : list Tool.t }.
Record ListResourcesResult := { resources : list Resource.t }.

(** ** The client object and the effects of a call *)

Record OrionMCPClient := {
  server_url : string;
  mcp_url : string;
  session_id : option string
}.

(** [OrionMCPClient(server_url)]. *)
Definition __init__ (url : string) : OrionMCPClient :=
  {| server_url := url; mcp_url := (url ++ "/mcp")%string; session_id := None |}.

Definition default_server_url : string := "http://localhost:3030".

(** What a call does, in program order: the calls into the transport
    library and the writes to attributes of [self]. *)
Inductive event : Type :=
| EvConnect (url : string)
| EvSessionEnter
| EvInitialize
| EvSetSessionId (sid : option string)
| EvCallTool (tool_name : string) (arguments : pyval)
| EvListTools
| EvListResources
| EvSessionExit
| EvDisconnect.

(** A request for which the server produces a reply. *)
Definition is_request (ev : event) : bool :=
  match ev with
  | EvCallTool _ _ | EvListTools | EvListResources => true
  | _ => false
  end.

Definition is_tool_request (ev : event) : bool :=
  match ev with
  | EvCallTool _ _ => true
  | _ => false
  end.

(** The far end as the transport library presents it to one call:
    whether each step raises, what each request returns, and what the
    [__aexit__] of each of the two context managers does with an
    exception that is pending when the block is left: the exception that
    leaves the [async with] statement, which is the pending one when
    [__aexit__] lets it through and another when [__aexit__] raises in
    its place (the task groups of the library raise an [ExceptionGroup]
    around it).  The library's exits swallow no exception of the block
    and raise nothing after a block that completed. *)
Record transport := {
  t_connect : string -> option exn;
  t_session_enter : option exn;
  t_initialize : option exn;
  t_get_session_id : option string;
  t_call_tool : string -> pyval -> outcome mcp.CallToolResult;
  t_list_tools : outcome ListToolsResult;
  t_list_resources : outcome ListResourcesResult;
  t_session_exit : exn -> exn;
  t_client_exit : exn -> exn
}.

(** State ([self]), errors and a log of events. *)
Definition M (A : Type) : Type :=
  OrionMCPClient -> outcome A * OrionMCPClient * list event.

Definition ret {A : Type} (a : A) : M A := fun self => (Return a, self, []).

Definition raise {A : Type} (e : exn) : M A := fun self => (Raise e, self, []).

Definition bind {A B : Type} (m : M A) (k : A -> M B) : M B :=
  fun self =>
    match m self with
    | (Return a, self1, tr1) =>
        let '(o, self2, tr2) := k a self1 in (o, self2, tr1 ++ tr2)
    | (Raise e, self1, tr1) => (Raise e, self1, tr1)
    end.

Definition emit (ev : event) : M unit := fun self => (Return tt, self, [ev]).

Definition get_self : M OrionMCPClient := fun self => (Return self, self, []).

Definition lift_step (r : option exn) : M unit :=
  match r with
  | None => ret tt
  | Some e => raise e
  end.

Definition lift_outcome {A : Type} (o : outcome A) : M A :=
  match o with
  | Return a => ret a
  | Raise e => raise e
  end.

Declare Scope py_scope.
Delimit Scope py_scope with py.
Notation "'let*' x ':=' c 'in' k" := (bind c (fun x => k))
  (at level 10, x name, c at level 100, k at level 200) : py_scope.
Notation "c ';;;' k" := (bind c (fun _ => k))
  (at level 100, k at level 200, right associativity) : py_scope.
Open Scope py_scope.

(** [async with enter as x: body x].  When [enter] raises, the block is
    not entered and [exit] is not run.  Otherwise [exit] runs once the
    body is left, normally or by an exception, is given the outcome of
    the body, and what it yields is the outcome of the statement. *)
Definition async_with {R A : Type} (enter : M R)
    (exit : outcome A -> M A) (body : R -> M A) : M A :=
  fun self =>
    match enter self with
    | (Return r, self1, tr1) =>
        let '(o, self2, tr2) := body r self1 in
        let '(o', self3, tr3) := exit o self2 in
        (o', self3, tr1 ++ tr2 ++ tr3)
    | (Raise e, self1, tr1) => (Raise e, self1, tr1)
    end.

(** The outcome of a block once [__aexit__] has seen it: a value goes
    through, a pending exception [e] leaves as [on_exception e]. *)
Definition leave_block {A : Type} (on_exception : exn -> exn)
    (o : outcome A) : outcome A :=
  match o with
  | Return a => Return a
  | Raise e => Raise (on_exception e)
  end.

(** [self.session_id = sid]. *)
Definition set_session_id (sid : option string) : M unit :=
  fun self =>
    (Return tt,
     {| server_url := server_url self;
        mcp_url := mcp_url self;
        session_id := sid |},
     [EvSetSessionId sid]).

Definition result_of {A : Type} (r : outcome A * OrionMCPClient * list event)
  : outcome A := fst (fst r).
Definition self_of {A : Type} (r : outcome A * OrionMCPClient * list event)
  : OrionMCPClient := snd (fst r).
Definition trace_of {A : Type} (r : outcome A * OrionMCPClient * list event)
  : list event := snd r.

(** ** The client *)

Section Client.

(** [json.loads] on a [str]: the decoded value, or the exception it
    raises. *)
Variable json_loads : string -> outcome pyval.

Variable srv : transport.

(** *** Calls into the transport library *)

Definition streamablehttp_client (url : string) : M unit :=
  emit (EvConnect url) ;;; lift_step (t_connect srv url).

Definition streamablehttp_client_exit {A : Type} (o : outcome A) : M A :=
  emit EvDisconnect ;;; lift_outcome (leave_block (t_client_exit srv) o).

Definition ClientSession : M unit :=
  emit EvSessionEnter ;;; lift_step (t_session_enter srv).

Definition ClientSession_exit {A : Type} (o : outcome A) : M A :=
  emit EvSessionExit ;;; lift_outcome (leave_block (t_session_exit srv) o).

Definition session_initialize : M unit :=
  emit EvInitialize ;;; lift_step (t_initialize srv).

Definition get_session_id : M (option string) := ret (t_get_session_id srv).

Definition session_call_tool (tool_name : string) (arguments : pyval)
  : M mcp.CallToolResult :=
  emit (EvCallTool tool_name arguments) ;;;
  lift_outcome (t_call_tool srv tool_name arguments).

Definition session_list_tools : M ListToolsResult :=
  emit EvListTools ;;; lift_outcome (t_list_tools srv).

Definition session_list_resources : M ListResourcesResult :=
  emit EvListResources ;;; lift_outcome (t_list_resources srv).

(** *** [_call_tool] *)

(** [{"params": params or {}}] *)
Definition request_data (params : option pydict) : pyval :=
  PyDict [("params", PyDict (dict_or params []))].

(** The dict returned for a block that has [data]. *)
Definition image_dict (content : mcp.ContentBlock) (data : string) : pyval :=
  PyDict [("type", PyStr "image");
          ("data", PyStr data);
          ("mimeType", PyStr (getattr (mcp.mimeType content) "image/jpeg"))].

(** Lines 61-82, "Parse and return the result".  [hasattr(content, a)]
    followed by a read of [content.a] is a match on the optional
    attribute; an exception that [except json.JSONDecodeError] does not
    catch leaves the method. *)
Definition parse_result (result : mcp.CallToolResult) : outcome pyval :=
  match mcp.content result with
  | content :: _ =>
      match mcp.text content with
      | Some text =>
          match json_loads text with
          | Return v => Return v
          | Raise e =>
              if is_JSONDecodeError e then Return (PyStr text) else Raise e
          end
      | None =>
          match mcp.data content with
          | Some data => Return (image_dict content data)
          | None => Return (PyCallToolResult result)
          end
      end
  | [] => Return (PyCallToolResult result)
  end.

Definition _call_tool (tool_name : string) (params : option pydict) : M pyval :=
  let* self := get_self in
  async_with (streamablehttp_client (mcp_url self)) streamablehttp_client_exit
    (fun _ =>
  async_with ClientSession ClientSession_exit
    (fun _ =>
      session_initialize ;;;
      let* sid := get_session_id in
      set_session_id sid ;;;
      let* result := session_call_tool tool_name (request_data params) in
      lift_outcome (parse_result result))).

(** *** The per-tool methods *)

Definition get_release_date (version : string) : M pyval :=
  _call_tool "get_release_date" (Some [("version", PyStr version)]).

Definition get_orion_configs : M pyval :=
  _call_tool "get_orion_configs" None.

Definition get_orion_metrics (config : string) : M pyval :=
  _call_tool "get_orion_metrics" (Some [("config", PyStr config)]).

Definition openshift_report_on_params
    (versions lookback : string) (since : option string)
    (metric config options : string) : pydict :=
  let params := [("versions", PyStr versions);
                 ("lookback", PyStr lookback);
                 ("metric", PyStr metric);
                 ("config", PyStr config);
                 ("options", PyStr options)] in
  if str_truthy since
  then dict_setitem "since" (py_optstr since) params
  else params.

Definition openshift_report_on
    (versions lookback : string) (since : option string)
    (metric config options : string) : M pyval :=
  _call_tool "openshift_report_on"
    (Some (openshift_report_on_params versions lookback since
             metric config options)).

Definition openshift_report_on_pr
    (version lookback organization repository pull_request : string)
  : M pyval :=
  _call_tool "openshift_report_on_pr"
    (Some [("version", PyStr version);
           ("lookback", PyStr lookback);
           ("organization", PyStr organization);
           ("repository", PyStr repository);
           ("pull_request", PyStr pull_request)]).

Definition has_openshift_regressed (version lookback : string) : M pyval :=
  _call_tool "has_openshift_regressed"
    (Some [("version", PyStr version); ("lookback", PyStr lookback)]).

Definition has_networking_regressed (version lookback : string) : M pyval :=
  _call_tool "has_networking_regressed"
    (Some [("version", PyStr version); ("lookback", PyStr lookback)]).

Definition metrics_correlation_params
    (metric1 metric2 config : string) (since : option string)
    (version lookback : string) : pydict :=
  let params := [("metric1", PyStr metric1);
                 ("metric2", PyStr metric2);
                 ("config", PyStr config);
                 ("version", PyStr version);
                 ("lookback", PyStr lookback)] in
  if str_truthy since
  then dict_setitem "since" (py_optstr since) params
  else params.

Definition metrics_correlation
    (metric1 metric2 config : string) (since : option string)
    (version lookback : string) : M pyval :=
  _call_tool "metrics_correlation"
    (Some (metrics_correlation_params metric1 metric2 config since
             version lookback)).

Definition has_nightly_regressed
    (nightly_version previous_nightly lookback configs : string) : M pyval :=
  _call_tool "has_nightly_regressed"
    (Some [("nightly_version", PyStr nightly_version);
           ("previous_nightly", PyStr previous_nightly);
           ("lookback", PyStr lookback);
           ("configs", PyStr configs)]).

(** *** Discovery *)

Definition tool_descriptor (tool : Tool.t) : pydict :=
  [("name", PyStr (Tool.name tool));
   ("description", py_optstr (Tool.description tool));
   ("inputSchema", PyDict (Tool.inputSchema tool))].

Definition resource_descriptor (resource : Resource.t) : pydict :=
  [("uri", PyStr (Resource.uri resource));
   ("name", PyStr (Resource.name resource));
   ("description", py_optstr (Resource.description resource))].

Definition list_tools : M (list pydict) :=
  let* self := get_self in
  async_with (streamablehttp_client (mcp_url self)) streamablehttp_client_exit
    (fun _ =>
  async_with ClientSession ClientSession_exit
    (fun _ =>
      session_initialize ;;;
      let* sid := get_session_id in
      set_session_id sid ;;;
      let* tools_result := session_list_tools in
      ret (map tool_descriptor (tools tools_result)))).

Definition list_resources : M (list pydict) :=
  let* self := get_self in
  async_with (streamablehttp_client (mcp_url self)) streamablehttp_client_exit
    (fun _ =>
  async_with ClientSession ClientSession_exit
    (fun _ =>
      session_initialize ;;;
      let* sid := get_session_id in
      set_session_id sid ;;;
      let* resources_result := session_list_resources in
      ret (map resource_descriptor (resources resources_result)))).

(** *** The scope the three methods share

    [_call_tool], [list_tools] and [list_resources] each repeat the same
    block around their request [k]: connect, enter the session,
    initialise, record the session id, run [k], leave.  The methods
    above spell it out as the source does; this is the block by itself,
    for the lemmas about it. *)
Definition session_scope {A : Type} (k : M A) : M A :=
  let* self := get_self in
  async_with (streamablehttp_client (mcp_url self))
    streamablehttp_client_exit
    (fun _ =>
  async_with (ClientSession) ClientSession_exit
    (fun _ =>
      session_initialize ;;;
      let* sid := get_session_id in
      set_session_id sid ;;; k)).

End Client.

Arguments request_data params : simpl never.

(** ** Outcomes of the handshake *)

(** The three steps that precede every request all succeed. *)
Definition session_established (srv : transport) (url : string) : Prop :=
  t_connect srv url = None /\
  t_session_enter srv = None /\
  t_initialize srv = None.

(** One of the three steps raises [e], the earlier ones having succeeded. *)
Definition handshake_fails (srv : transport) (url : string) (e : exn) : Prop :=
  t_connect srv url = Some e \/
  (t_connect srv url = None /\ t_session_enter srv = Some e) \/
  (t_connect srv url = None /\ t_session_enter srv = None /\
   t_initialize srv = Some e).

(** What leaves the method when [e] was raised inside both blocks: the
    session's exit sees it first, the connection's exit sees the
    result. *)
Definition leave_blocks {A : Type} (srv : transport) (o : outcome A)
  : outcome A :=
  leave_block (t_client_exit srv) (leave_block (t_session_exit srv) o).

(** What leaves the method when the handshake fails with [e]: [e] itself
    when the connection could not be opened, otherwise what the exits of
    the blocks already entered make of it. *)
Definition handshake_exception (srv : transport) (url : string) (e : exn)
  : exn :=
  match t_connect srv url with
  | Some _ => e
  | None =>
      match t_session_enter srv with
      | Some _ => t_client_exit srv e
      | None => t_client_exit srv (t_session_exit srv e)
      end
  end.

Definition with_session_id (self : OrionMCPClient) (sid : option string)
  : OrionMCPClient :=
  {| server_url := server_url self; mcp_url := mcp_url self; session_id := sid |}.

(** The tool requests of a run, in order. *)
Definition tool_requests (tr : list event) : list event :=
  List.filter is_tool_request tr.

(** The run sent exactly one tool request: [tool_name], with the
    envelope whose [params] field is [bag]. *)
Definition sends (tr : list event) (tool_name : string) (bag : pydict)
  : Prop :=
  tool_requests tr = [EvCallTool tool_name (PyDict [("params", PyDict bag)])].

(** All the requests of a run, in order. *)
Definition requests (tr : list event) : list event :=
  List.filter is_request tr.

(** The events of one session that gets as far as its request. *)
Definition session_trace (url : string) (sid : option string) (req : event)
  : list event :=
  [EvConnect url; EvSessionEnter; EvInitialize; EvSetSessionId sid;
   req; EvSessionExit; EvDisconnect].

(** What a run whose request is [req] may do to the client.  The two
    endpoint fields stay as they were.  When the handshake succeeds,
    [session_id] ends up as the id of the new session, and the events are
    those of one session: the assignment follows [initialize] and comes
    before the request, which is the only one.  When the handshake
    fails, [session_id] stays as it was, it is never assigned, and no
    request goes out. *)
Definition client_frame (srv : transport)
    (self self' : OrionMCPClient) (tr : list event) (req : event) : Prop :=
  server_url self' = server_url self /\
  mcp_url self' = mcp_url self /\
  (session_established srv (mcp_url self) ->
   session_id self' = t_get_session_id srv /\
   tr = session_trace (mcp_url self) (t_get_session_id srv) req) /\
  (forall e, handshake_fails srv (mcp_url self) e ->
   session_id self' = session_id self /\
   (forall sid, ~ In (EvSetSessionId sid) tr) /\
   requests tr = []).

(** ** Concrete servers and replies *)

Module Examples.

Definition dquote : string := String "034"%char EmptyString.

(** The text [{"data": {}}]. *)
Definition data_object_text : string :=
  ("{" ++ dquote ++ "data" ++ dquote ++ ": {}}")%string.

Definition tool_failure_text : string :=
  "Error executing tool has_openshift_regressed: no data".

Definition TextContent (t : string) : mcp.ContentBlock :=
  {| mcp.type := "text"; mcp.text := Some t;
     mcp.data := None; mcp.mimeType := None |}.

Definition ImageContent (d m : string) : mcp.ContentBlock :=
  {| mcp.type := "image"; mcp.text := None;
     mcp.data := Some d; mcp.mimeType := Some m |}.

(** A block that carries data and declares no MIME type. *)
Definition BareData (d : string) : mcp.ContentBlock :=
  {| mcp.type := "image"; mcp.text := None;
     mcp.data := Some d; mcp.mimeType := None |}.

Definition EmbeddedResource : mcp.ContentBlock :=
  {| mcp.type := "resource"; mcp.text := None;
     mcp.data := None; mcp.mimeType := None |}.

Definition reply (blocks : list mcp.ContentBlock) : mcp.CallToolResult :=
  {| mcp.content := blocks; mcp.isError := false |}.

Definition error_reply (blocks : list mcp.ContentBlock)
  : mcp.CallToolResult :=
  {| mcp.content := blocks; mcp.isError := true |}.

(** What [json.loads] does on the texts used below.  A text outside
    the table is marked as such; no example depends on it. *)
Definition json_loads_table : list (string * outcome pyval) :=
  [ (data_object_text, Return (PyDict [("data", PyDict [])]));
    ("2024-06-01",
     Raise (Exn "JSONDecodeError" "Extra data: line 1 column 5 (char 4)"));
    (tool_failure_text,
     Raise (Exn "JSONDecodeError"
              "Expecting value: line 1 column 1 (char 0)")) ].

Fixpoint table_lookup (tbl : list (string * outcome pyval)) (s : string)
  : outcome pyval :=
  match tbl with
  | [] => Raise (Exn "LookupError" "text outside the table")
  | (s', o) :: tbl' => if String.eqb s s' then o else table_lookup tbl' s
  end.

Definition json_loads : string -> outcome pyval :=
  table_lookup json_loads_table.

Definition tool_A : Tool.t :=
  {| Tool.name := "A"; Tool.title := None;
     Tool.description := Some "first";
     Tool.inputSchema := [("type", PyStr "object")] |}.
Definition tool_B : Tool.t :=
  {| Tool.name := "B"; Tool.title := Some "Tool B";
     Tool.description := None;
     Tool.inputSchema := [("type", PyStr "object")] |}.
Definition tool_C : Tool.t :=
  {| Tool.name := "C"; Tool.title := None;
     Tool.description := Some "third";
     Tool.inputSchema := [] |}.

Definition resource_R : Resource.t :=
  {| Resource.uri := "orion://configs"; Resource.name := "configs";
     Resource.description := None; Resource.mimeType := Some "text/plain" |}.

(** The exit of a task group with an exception pending: it raises an
    [ExceptionGroup] that holds it. *)
Definition task_group_exit (e : exn) : exn :=
  ExceptionGroup "unhandled errors in a TaskGroup" [e].

(** A server that accepts the connection and the handshake and answers
    every tool call with [r]. *)
Definition server_replying (r : mcp.CallToolResult) : transport :=
  {| t_connect := fun _ => None;
     t_session_enter := None;
     t_initialize := None;
     t_get_session_id := Some "session-1";
     t_call_tool := fun _ _ => Return r;
     t_list_tools := Return {| tools := [tool_A; tool_B; tool_A; tool_C] |};
     t_list_resources := Return {| resources := [resource_R; resource_R] |};
     t_session_exit := task_group_exit;
     t_client_exit := task_group_exit |}.

(** A server whose handshake ends in the exception [e]. *)
Definition server_rejecting_handshake (e : exn) : transport :=
  {| t_connect := fun _ => None;
     t_session_enter := None;
     t_initialize := Some e;
     t_get_session_id := None;
     t_call_tool := fun _ _ => Return (reply []);
     t_list_tools := Return {| tools := [] |};
     t_list_resources := Return {| resources := [] |};
     t_session_exit := task_group_exit;
     t_client_exit := task_group_exit |}.

(** What [ClientSession.initialize] raises when the server answers with
    a protocol version the library does not know. *)
Definition unsupported_version : exn :=
  Exn "RuntimeError"
      "Unsupported protocol version from the server: 1999-01-01".

Definition client : OrionMCPClient := __init__ default_server_url.

(** Default values of the keyword arguments used below. *)
Definition default_previous_nightly : string := EmptyString.
Definition default_configs : string := EmptyString.
Definition default_nightly_lookback : string := "30".

End Examples.

(** ** Callers: the example run and the test for an image *)

(** What becomes of a reply once it is there: [f] is applied to it, and
    an exception in place of the reply goes through. *)
Definition and_then {A B : Type} (o : outcome A) (f : A -> outcome B)
  : outcome B :=
  match o with
  | Return a => f a
  | Raise e => Raise e
  end.

(** [isinstance(result, dict) and result.get("type") == "image"], the
    test the example scripts apply to what [openshift_report_on] and
    [metrics_correlation] return before they read [result["data"]]. *)
Definition is_image_result (result : pyval) : bool :=
  match result with
  | PyDict d =>
      match dict_get "type" d with
      | Some (PyStr s) => String.eqb s "image"
      | _ => false
      end
  | _ => false
  end.

Section Main.

(** [json.loads] and [json.dumps(_, indent=2)]: the value, or the
    exception raised. *)
Variable json_loads : string -> outcome pyval.
Variable json_dumps : pyval -> outcome string.

(** Each method call opens a connection of its own: [srv n] is the far
    end as the n-th connection of the run finds it. *)
Variable srv : nat -> transport.

(** The body of [main] after the client is built, without the text it
    prints.  The f-strings format values that are always there; only
    [json.dumps] can raise. *)
Definition main_body : M unit :=
  let* tools := list_tools (srv 0) in
  let* release_date := get_release_date json_loads (srv 1) "4.20" in
  let* configs := get_orion_configs json_loads (srv 2) in
  let* metrics :=
    get_orion_metrics json_loads (srv 3) "small-scale-udn-l3.yaml" in
  let* metrics_text := lift_outcome (json_dumps metrics) in
  let* regressions :=
    has_openshift_regressed json_loads (srv 4) "4.19" "15" in
  let* report :=
    openshift_report_on json_loads (srv 5) "4.19,4.20" "15" None
      "podReadyLatency_P99" "small-scale-udn-l3.yaml" "json" in
  ret tt.

Definition main : outcome unit * OrionMCPClient * list event :=
  main_body (__init__ "http://localhost:3030").

End Main.

(** The requests [main] makes when nothing fails. *)
Definition main_requests : list event :=
  [EvListTools;
   EvCallTool "get_release_date"
     (PyDict [("params", PyDict [("version", PyStr "4.20")])]);
   EvCallTool "get_orion_configs" (PyDict [("params", PyDict [])]);
   EvCallTool "get_orion_metrics"
     (PyDict [("params",
               PyDict [("config", PyStr "small-scale-udn-l3.yaml")])]);
   EvCallTool "has_openshift_regressed"
     (PyDict [("params",
               PyDict [("version", PyStr "4.19"); ("lookback", PyStr "15")])]);
   EvCallTool "openshift_report_on"
     (PyDict [("params",
               PyDict [("versions", PyStr "4.19,4.20");
                       ("lookback", PyStr "15");
                       ("metric", PyStr "podReadyLatency_P99");
                       ("config", PyStr "small-scale-udn-l3.yaml");
                       ("options", PyStr "json")])])].

(** The events of [main] when nothing fails: one session after another,
    each with its own id. *)
Definition main_trace (srv : nat -> transport) : list event :=
  concat
    (zip_with
       (fun n req =>
          session_trace "http://localhost:3030/mcp"
            (t_get_session_id (srv n)) req)
       (seq 0 6) main_requests).

(** The run sent one request, [req], or none and raised. *)
Definition one_request_or_raises {A : Type} (req : event)
    (r : outcome A * OrionMCPClient * list event) : Prop :=
  requests (trace_of r) = [req] \/
  (requests (trace_of r) = [] /\ exists e, result_of r = Raise e).

Module MainExamples.

(** [json.dumps] on the values of the examples: a string free of
    characters to escape is put between quotes, and a [CallToolResult] is
    an object it cannot serialise.  Other values are marked as outside
    the table. *)
Definition json_dumps (v : pyval) : outcome string :=
  match v with
  | PyStr t =>
      if String.eqb t "2024-06-01"
      then Return (Examples.dquote ++ t ++ Examples.dquote)%string
      else Raise (Exn "LookupError" "value outside the table")
  | PyCallToolResult _ =>
      Raise (Exn "TypeError"
               "Object of type CallToolResult is not JSON serializable")
  | _ => Raise (Exn "LookupError" "value outside the table")
  end.

Definition date_reply : mcp.CallToolResult :=
  Examples.reply [Examples.TextContent "2024-06-01"].

Definition date_server (n : nat) : transport :=
  Examples.server_replying date_reply.

(** A server whose tool call raises [e]. *)
Definition server_failing_request (e : exn) : transport :=
  {| t_connect := fun _ => None;
     t_session_enter := None;
     t_initialize := None;
     t_get_session_id := Some "session-2";
     t_call_tool := fun _ _ => Raise e;
     t_list_tools := Raise e;
     t_list_resources := Raise e;
     t_session_exit := Examples.task_group_exit;
     t_client_exit := Examples.task_group_exit |}.

Definition timeout : exn := Exn "McpError" "Timed out while waiting for response".

(** A hundred thousand opening brackets: an array nested deeper than the
    interpreter's recursion limit allows [json.loads] to follow. *)
Definition deep_array_text : string :=
  N.iter 100000 (String "["%char) EmptyString.

Fixpoint leading_brackets (t : string) : N :=
  match t with
  | String c t' =>
      if Ascii.eqb c "["%char then N.succ (leading_brackets t') else 0%N
  | EmptyString => 0%N
  end.

Definition recursion_error : exn :=
  Exn "RecursionError"
      "maximum recursion depth exceeded while decoding a JSON array from a unicode string".

(** [json.loads] with that limit: a text that opens with so many brackets
    ends in [RecursionError]; the other texts are those of the table. *)
Definition json_loads_bounded (t : string) : outcome pyval :=
  if (100000 <=? leading_brackets t)%N
  then Raise recursion_error
  else Examples.json_loads t.

End MainExamples.

(** ** Running a call *)

Lemma _call_tool_scope json_loads srv tool_name params :
  _call_tool json_loads srv tool_name params =
  session_scope srv
    (let* result := session_call_tool srv tool_name (request_data params) in
     lift_outcome (parse_result json_loads result)).
Proof. reflexivity. Qed.

Lemma list_tools_scope srv :
  list_tools srv =
  session_scope srv
    (let* tools_result := session_list_tools srv in
     ret (map tool_descriptor (tools tools_result))).
Proof. reflexivity. Qed.

Lemma list_resources_scope srv :
  list_resources srv =
  session_scope srv
    (let* resources_result := session_list_resources srv in
     ret (map resource_descriptor (resources resources_result))).
Proof. reflexivity. Qed.

(** The run of the shared scope, for each way the handshake can go. *)
Lemma session_scope_run {A : Type} srv (k : M A) self :
  session_scope srv k self =
  match t_connect srv (mcp_url self) with
  | Some e => (Raise e, self, [EvConnect (mcp_url self)])
  | None =>
      match t_session_enter srv with
      | Some e =>
          (Raise (t_client_exit srv e), self,
           [EvConnect (mcp_url self); EvSessionEnter; EvDisconnect])
      | None =>
          match t_initialize srv with
          | Some e =>
              (Raise (t_client_exit srv (t_session_exit srv e)), self,
               [EvConnect (mcp_url self); EvSessionEnter; EvInitialize;
                EvSessionExit; EvDisconnect])
          | None =>
              let '(o, self', tr) :=
                k (with_session_id self (t_get_session_id srv)) in
              (leave_blocks srv o, self',
               [EvConnect (mcp_url self); EvSessionEnter; EvInitialize;
                EvSetSessionId (t_get_session_id srv)]
               ++ tr ++ [EvSessionExit; EvDisconnect])
          end
      end
  end.
Proof.
  unfold session_scope, async_with, bind, get_self, streamablehttp_client,
    ClientSession, session_initialize, get_session_id, set_session_id,
    streamablehttp_client_exit, ClientSession_exit, emit, with_session_id,
    leave_blocks.
  cbn.
  destruct (t_connect srv (mcp_url self)) as [e|]; [reflexivity|]. cbn.
  destruct (t_session_enter srv) as [e|]; [reflexivity|]. cbn.
  destruct (t_initialize srv) as [e|]; [reflexivity|]. cbn.
  destruct (k _) as [[o self'] tr]. cbn.
  destruct o as [a|e]; cbn; rewrite <- app_assoc; reflexivity.
Qed.

Lemma session_scope_established {A : Type} srv (k : M A) self :
  session_established srv (mcp_url self) ->
  session_scope srv k self =
  let '(o, self', tr) := k (with_session_id self (t_get_session_id srv)) in
  (leave_blocks srv o, self',
   [EvConnect (mcp_url self); EvSessionEnter; EvInitialize;
    EvSetSessionId (t_get_session_id srv)]
   ++ tr ++ [EvSessionExit; EvDisconnect]).
Proof.
  intros (Hc & He & Hi). rewrite session_scope_run, Hc, He, Hi. reflexivity.
Qed.

(** A request followed by a computation on its reply that touches
    neither [self] nor the transport. *)
Lemma request_run {A B : Type} (ev : event) (o : outcome A)
    (f : A -> outcome B) (s : OrionMCPClient) :
  (let* x := (emit ev ;;; lift_outcome o) in lift_outcome (f x)) s
  = (and_then o f, s, [ev]).
Proof.
  unfold bind, emit. cbn. destruct o as [a|e]; cbn; [|reflexivity].
  destruct (f a); reflexivity.
Qed.

Lemma _call_tool_run json_loads srv tool_name params self :
  _call_tool json_loads srv tool_name params self =
  match t_connect srv (mcp_url self) with
  | Some e => (Raise e, self, [EvConnect (mcp_url self)])
  | None =>
      match t_session_enter srv with
      | Some e =>
          (Raise (t_client_exit srv e), self,
           [EvConnect (mcp_url self); EvSessionEnter; EvDisconnect])
      | None =>
          match t_initialize srv with
          | Some e =>
              (Raise (t_client_exit srv (t_session_exit srv e)), self,
               [EvConnect (mcp_url self); EvSessionEnter; EvInitialize;
                EvSessionExit; EvDisconnect])
          | None =>
              (leave_blocks srv
                 (and_then (t_call_tool srv tool_name (request_data params))
                    (parse_result json_loads)),
               with_session_id self (t_get_session_id srv),
               session_trace (mcp_url self) (t_get_session_id srv)
                 (EvCallTool tool_name (request_data params)))
          end
      end
  end.
Proof.
  rewrite _call_tool_scope, session_scope_run.
  unfold session_call_tool. rewrite request_run. reflexivity.
Qed.

Lemma list_tools_run srv self :
  list_tools srv self =
  match t_connect srv (mcp_url self) with
  | Some e => (Raise e, self, [EvConnect (mcp_url self)])
  | None =>
      match t_session_enter srv with
      | Some e =>
          (Raise (t_client_exit srv e), self,
           [EvConnect (mcp_url self); EvSessionEnter; EvDisconnect])
      | None =>
          match t_initialize srv with
          | Some e =>
              (Raise (t_client_exit srv (t_session_exit srv e)), self,
               [EvConnect (mcp_url self); EvSessionEnter; EvInitialize;
                EvSessionExit; EvDisconnect])
          | None =>
              (leave_blocks srv
                 (and_then (t_list_tools srv)
                    (fun tl => Return (map tool_descriptor (tools tl)))),
               with_session_id self (t_get_session_id srv),
               session_trace (mcp_url self) (t_get_session_id srv)
                 EvListTools)
          end
      end
  end.
Proof.
  rewrite list_tools_scope, session_scope_run.
  unfold session_list_tools.
  change (fun tools_result : ListToolsResult =>
            ret (map tool_descriptor (tools tools_result)))
    with (fun tools_result : ListToolsResult =>
            lift_outcome
              (Return (map tool_descriptor (tools tools_result)))).
  rewrite request_run. reflexivity.
Qed.

Lemma list_resources_run srv self :
  list_resources srv self =
  match t_connect srv (mcp_url self) with
  | Some e => (Raise e, self, [EvConnect (mcp_url self)])
  | None =>
      match t_session_enter srv with
      | Some e =>
          (Raise (t_client_exit srv e), self,
           [EvConnect (mcp_url self); EvSessionEnter; EvDisconnect])
      | None =>
          match t_initialize srv with
          | Some e =>
              (Raise (t_client_exit srv (t_session_exit srv e)), self,
               [EvConnect (mcp_url self); EvSessionEnter; EvInitialize;
                EvSessionExit; EvDisconnect])
          | None =>
              (leave_blocks srv
                 (and_then (t_list_resources srv)
                    (fun rl => Return (map resource_descriptor (resources rl)))),
               with_session_id self (t_get_session_id srv),
               session_trace (mcp_url self) (t_get_session_id srv)
                 EvListResources)
          end
      end
  end.
Proof.
  rewrite list_resources_scope, session_scope_run.
  unfold session_list_resources.
  change (fun resources_result : ListResourcesResult =>
            ret (map resource_descriptor (resources resources_result)))
    with (fun resources_result : ListResourcesResult =>
            lift_outcome
              (Return (map resource_descriptor (resources resources_result)))).
  rewrite request_run. reflexivity.
Qed.

(** The run of [_call_tool] once the session is up and the server has
    answered the request. *)
Lemma _call_tool_replied json_loads srv tool_name params self r :
  session_established srv (mcp_url self) ->
  t_call_tool srv tool_name (request_data params) = Return r ->
  _call_tool json_loads srv tool_name params self =
  (leave_blocks srv (parse_result json_loads r),
   with_session_id self (t_get_session_id srv),
   [EvConnect (mcp_url self); EvSessionEnter; EvInitialize;
    EvSetSessionId (t_get_session_id srv);
    EvCallTool tool_name (request_data params);
    EvSessionExit; EvDisconnect]).
Proof.
  intros (Hc & He & Hi) Hr.
  rewrite _call_tool_run, Hc, He, Hi, Hr. reflexivity.
Qed.

(** The same when the request itself raises. *)
Lemma _call_tool_request_raises json_loads srv tool_name params self e :
  session_established srv (mcp_url self) ->
  t_call_tool srv tool_name (request_data params) = Raise e ->
  _call_tool json_loads srv tool_name params self =
  (Raise (t_client_exit srv (t_session_exit srv e)),
   with_session_id self (t_get_session_id srv),
   [EvConnect (mcp_url self); EvSessionEnter; EvInitialize;
    EvSetSessionId (t_get_session_id srv);
    EvCallTool tool_name (request_data params);
    EvSessionExit; EvDisconnect]).
Proof.
  intros (Hc & He & Hi) Hr.
  rewrite _call_tool_run, Hc, He, Hi, Hr. reflexivity.
Qed.

(** ** Small facts about the helpers *)

Lemma dict_or_default (params : option pydict) :
  dict_or params [] = default [] params.
Proof. destruct params as [[|kv d]|]; reflexivity. Qed.

Lemma request_data_params (params : option pydict) :
  request_data params = PyDict [("params", PyDict (default [] params))].
Proof. unfold request_data. rewrite dict_or_default. reflexivity. Qed.

Lemma established_server_replying r url :
  session_established (Examples.server_replying r) url.
Proof. repeat split. Qed.

(** The tool requests of a call whose session is established: exactly
    one, whatever the server then answers. *)
Lemma tool_requests_established json_loads srv self tool_name params :
  session_established srv (mcp_url self) ->
  tool_requests (trace_of (_call_tool json_loads srv tool_name params self)) =
  [EvCallTool tool_name (request_data params)].
Proof.
  intros Hs.
  destruct (t_call_tool srv tool_name (request_data params)) as [r|e] eqn:Hr.
  - rewrite (_call_tool_replied json_loads srv _ _ _ _ Hs Hr). reflexivity.
  - rewrite (_call_tool_request_raises json_loads srv _ _ _ _ Hs Hr).
    reflexivity.
Qed.

Lemma result_of_replied json_loads srv self tool_name params r :
  session_established srv (mcp_url self) ->
  t_call_tool srv tool_name (request_data params) = Return r ->
  result_of (_call_tool json_loads srv tool_name params self) =
  leave_blocks srv (parse_result json_loads r).
Proof.
  intros Hs Hr. rewrite (_call_tool_replied json_loads srv _ _ _ _ Hs Hr).
  reflexivity.
Qed.

(** ** Decoding a reply *)

(** C1, amended.  When the first content block of the reply has a
    [text], the call returns what [json.loads] makes of that text if it
    decodes, and the text itself, unchanged, if [json.loads] raises
    [JSONDecodeError]; in neither case does the call raise. *)
Theorem text_block_is_json_or_raw_text
    json_loads srv self tool_name params r block rest t :
  session_established srv (mcp_url self) ->
  t_call_tool srv tool_name (request_data params) = Return r ->
  mcp.content r = block :: rest ->
  mcp.text block = Some t ->
  (forall v, json_loads t = Return v ->
     result_of (_call_tool json_loads srv tool_name params self) = Return v)
  /\
  (forall e, json_loads t = Raise e -> is_JSONDecodeError e = true ->
     result_of (_call_tool json_loads srv tool_name params self)
     = Return (PyStr t)).
Proof.
  intros Hs Hr Hc Ht.
  rewrite (result_of_replied _ _ _ _ _ _ Hs Hr).
  unfold parse_result. rewrite Hc, Ht.
  split.
  - intros v Hv. rewrite Hv. reflexivity.
  - intros e He Hd. rewrite He, Hd. reflexivity.
Qed.

(** The two scenarios of the specification: a release date that is not
    JSON comes back as text, a JSON object comes back decoded. *)
Lemma text_block_is_json_or_raw_text_witness :
  result_of
    (_call_tool Examples.json_loads
       (Examples.server_replying
          (Examples.reply [Examples.TextContent "2024-06-01"]))
       "get_release_date" (Some [("version", PyStr "4.20")])
       Examples.client)
  = Return (PyStr "2024-06-01")
  /\
  result_of
    (_call_tool Examples.json_loads
       (Examples.server_replying
          (Examples.reply [Examples.TextContent Examples.data_object_text]))
       "openshift_report_on"
       (Some [("versions", PyStr "4.19,4.20"); ("options", PyStr "json")])
       Examples.client)
  = Return (PyDict [("data", PyDict [])]).
Proof.
  split.
  - pose proof (text_block_is_json_or_raw_text Examples.json_loads
                  (Examples.server_replying
                     (Examples.reply [Examples.TextContent "2024-06-01"]))
                  Examples.client "get_release_date"
                  (Some [("version", PyStr "4.20")])
                  (Examples.reply [Examples.TextContent "2024-06-01"])
                  (Examples.TextContent "2024-06-01") [] "2024-06-01"
                  (established_server_replying _ _)
                  eq_refl eq_refl eq_refl) as [_ Hraw].
    exact (Hraw _ eq_refl eq_refl).
  - pose proof (text_block_is_json_or_raw_text Examples.json_loads
                  (Examples.server_replying
                     (Examples.reply
                        [Examples.TextContent Examples.data_object_text]))
                  Examples.client "openshift_report_on"
                  (Some [("versions", PyStr "4.19,4.20");
                         ("options", PyStr "json")])
                  (Examples.reply
                     [Examples.TextContent Examples.data_object_text])
                  (Examples.TextContent Examples.data_object_text) []
                  Examples.data_object_text
                  (established_server_replying _ _)
                  eq_refl eq_refl eq_refl) as [Hjson _].
    exact (Hjson _ eq_refl).
Defined.

(** C1, as stated, fails: a parse failure that is not a
    [JSONDecodeError] is not caught.  On a text that opens a hundred
    thousand arrays [json.loads] ends in [RecursionError], and the call
    raises: the caller gets that exception as the exits of the two
    blocks pass it on. *)
Lemma uncaught_parse_failure_leaves_the_call :
  MainExamples.json_loads_bounded MainExamples.deep_array_text
  = Raise MainExamples.recursion_error
  /\
  result_of
    (_call_tool MainExamples.json_loads_bounded
       (Examples.server_replying
          (Examples.reply
             [Examples.TextContent MainExamples.deep_array_text]))
       "get_orion_configs" None Examples.client)
  = Raise
      (ExceptionGroup "unhandled errors in a TaskGroup"
         [ExceptionGroup "unhandled errors in a TaskGroup"
            [MainExamples.recursion_error]]).
Proof. split; vm_compute; reflexivity. Qed.

(** C5.  A reply with no content block, and a reply whose first block has
    neither [text] nor [data], come back whole: the call returns the
    [CallToolResult] itself and does not raise. *)
Theorem unclassified_reply_is_returned_whole
    json_loads srv self tool_name params r :
  session_established srv (mcp_url self) ->
  t_call_tool srv tool_name (request_data params) = Return r ->
  mcp.content r = [] \/
  (exists block rest,
     mcp.content r = block :: rest /\
     mcp.text block = None /\ mcp.data block = None) ->
  result_of (_call_tool json_loads srv tool_name params self)
  = Return (PyCallToolResult r).
Proof.
  intros Hs Hr Hshape.
  rewrite (result_of_replied _ _ _ _ _ _ Hs Hr).
  unfold parse_result.
  destruct Hshape as [Hc | (block & rest & Hc & Ht & Hd)].
  - rewrite Hc. reflexivity.
  - rewrite Hc, Ht, Hd. reflexivity.
Qed.

Lemma unclassified_reply_is_returned_whole_witness :
  result_of
    (_call_tool Examples.json_loads
       (Examples.server_replying (Examples.reply []))
       "get_orion_configs" None Examples.client)
  = Return (PyCallToolResult (Examples.reply []))
  /\
  result_of
    (_call_tool Examples.json_loads
       (Examples.server_replying
          (Examples.reply [Examples.EmbeddedResource]))
       "get_orion_configs" None Examples.client)
  = Return (PyCallToolResult (Examples.reply [Examples.EmbeddedResource])).
Proof.
  split.
  - apply unclassified_reply_is_returned_whole.
    + apply established_server_replying.
    + reflexivity.
    + left. reflexivity.
  - apply unclassified_reply_is_returned_whole.
    + apply established_server_replying.
    + reflexivity.
    + right. exists Examples.EmbeddedResource, []. repeat split.
Defined.

(** C7.  When the first content block has [data] and no [text], the call
    returns the image dict: that data, and the block's [mimeType], or
    [image/jpeg] when the block has none. *)
Theorem data_block_is_image
    json_loads srv self tool_name params r block rest d :
  session_established srv (mcp_url self) ->
  t_call_tool srv tool_name (request_data params) = Return r ->
  mcp.content r = block :: rest ->
  mcp.text block = None ->
  mcp.data block = Some d ->
  result_of (_call_tool json_loads srv tool_name params self)
  = Return (PyDict [("type", PyStr "image");
                    ("data", PyStr d);
                    ("mimeType",
                     PyStr (match mcp.mimeType block with
                            | Some m => m
                            | None => "image/jpeg"
                            end))]).
Proof.
  intros Hs Hr Hc Ht Hd.
  rewrite (result_of_replied _ _ _ _ _ _ Hs Hr).
  unfold parse_result. rewrite Hc, Ht, Hd. reflexivity.
Qed.

Lemma data_block_is_image_witness :
  result_of
    (_call_tool Examples.json_loads
       (Examples.server_replying
          (Examples.reply [Examples.BareData "aGVsbG8="]))
       "metrics_correlation" None Examples.client)
  = Return (PyDict [("type", PyStr "image");
                    ("data", PyStr "aGVsbG8=");
                    ("mimeType", PyStr "image/jpeg")])
  /\
  result_of
    (_call_tool Examples.json_loads
       (Examples.server_replying
          (Examples.reply [Examples.ImageContent "aGVsbG8=" "image/png"]))
       "metrics_correlation" None Examples.client)
  = Return (PyDict [("type", PyStr "image");
                    ("data", PyStr "aGVsbG8=");
                    ("mimeType", PyStr "image/png")]).
Proof.
  split.
  - apply (data_block_is_image Examples.json_loads
             (Examples.server_replying
                (Examples.reply [Examples.BareData "aGVsbG8="]))
             Examples.client "metrics_correlation" None
             (Examples.reply [Examples.BareData "aGVsbG8="])
             (Examples.BareData "aGVsbG8=") [] "aGVsbG8="
             (established_server_replying _ _));
      reflexivity.
  - apply (data_block_is_image Examples.json_loads
             (Examples.server_replying
                (Examples.reply [Examples.ImageContent "aGVsbG8=" "image/png"]))
             Examples.client "metrics_correlation" None
             (Examples.reply [Examples.ImageContent "aGVsbG8=" "image/png"])
             (Examples.ImageContent "aGVsbG8=" "image/png") [] "aGVsbG8="
             (established_server_replying _ _));
      reflexivity.
Defined.

(** ** The request *)

(** C2.  Once the session is established, the call sends exactly one tool
    request, and its envelope is the dict with the single key [params]
    bound to the caller's bag: the bag itself, and the empty dict when the
    caller passed [None] (or nothing). *)
Theorem params_field_always_sent json_loads srv self tool_name params :
  session_established srv (mcp_url self) ->
  exists envelope,
    tool_requests (trace_of (_call_tool json_loads srv tool_name params self))
    = [EvCallTool tool_name (PyDict envelope)] /\
    dict_keys envelope = ["params"] /\
    dict_get "params" envelope =
    Some (PyDict (match params with Some P => P | None => [] end)).
Proof.
  intros Hs. rewrite (tool_requests_established _ _ _ _ _ Hs).
  rewrite request_data_params.
  eexists. split; [reflexivity|]. split; [reflexivity|].
  destruct params; reflexivity.
Qed.

Lemma params_field_always_sent_witness :
  (exists envelope,
     tool_requests
       (trace_of (_call_tool Examples.json_loads
                    (Examples.server_replying (Examples.reply []))
                    "get_orion_configs" None Examples.client))
     = [EvCallTool "get_orion_configs" (PyDict envelope)] /\
     dict_keys envelope = ["params"] /\
     dict_get "params" envelope = Some (PyDict []))
  /\
  (exists envelope,
     tool_requests
       (trace_of (_call_tool Examples.json_loads
                    (Examples.server_replying (Examples.reply []))
                    "get_orion_configs" (Some []) Examples.client))
     = [EvCallTool "get_orion_configs" (PyDict envelope)] /\
     dict_keys envelope = ["params"] /\
     dict_get "params" envelope = Some (PyDict [])).
Proof.
  split.
  - apply (params_field_always_sent Examples.json_loads
             (Examples.server_replying (Examples.reply []))
             Examples.client "get_orion_configs" None).
    apply established_server_replying.
  - apply (params_field_always_sent Examples.json_loads
             (Examples.server_replying (Examples.reply []))
             Examples.client "get_orion_configs" (Some [])).
    apply established_server_replying.
Defined.

(** ** Failures *)

(** C3, as stated, fails: a reply that reports a tool failure
    ([isError] set, the message in a text block) makes the call return the
    message as an ordinary string. *)
Lemma reported_failure_comes_back_as_text :
  mcp.isError
    (Examples.error_reply [Examples.TextContent Examples.tool_failure_text])
  = true
  /\
  result_of
    (_call_tool Examples.json_loads
       (Examples.server_replying
          (Examples.error_reply
             [Examples.TextContent Examples.tool_failure_text]))
       "has_openshift_regressed"
       (Some [("version", PyStr "4.19"); ("lookback", PyStr "15")])
       Examples.client)
  = Return (PyStr Examples.tool_failure_text).
Proof. split; reflexivity. Qed.

(** C3, amended.  [isError] is never read, and no reply raises on
    account of it.  A reply that reports a tool failure is decoded like
    any other: a message in a text block is returned decoded when it is
    JSON, and verbatim as a string when [json.loads] raises
    [JSONDecodeError] on it; an exception of another class raised by
    [json.loads] leaves the call, as it does for any reply; a data block
    is returned as the image dict; anything else comes back as the whole
    reply, flag included. *)
Theorem reported_failure_is_decoded_like_any_reply
    json_loads srv self tool_name params r :
  session_established srv (mcp_url self) ->
  t_call_tool srv tool_name (request_data params) = Return r ->
  mcp.isError r = true ->
  (forall block rest msg,
     mcp.content r = block :: rest -> mcp.text block = Some msg ->
     (forall v, json_loads msg = Return v ->
        result_of (_call_tool json_loads srv tool_name params self)
        = Return v) /\
     (forall e, json_loads msg = Raise e -> is_JSONDecodeError e = true ->
        result_of (_call_tool json_loads srv tool_name params self)
        = Return (PyStr msg)) /\
     (forall e, json_loads msg = Raise e -> is_JSONDecodeError e = false ->
        result_of (_call_tool json_loads srv tool_name params self)
        = Raise (t_client_exit srv (t_session_exit srv e))))
  /\
  (forall block rest d,
     mcp.content r = block :: rest ->
     mcp.text block = None -> mcp.data block = Some d ->
     result_of (_call_tool json_loads srv tool_name params self)
     = Return (image_dict block d))
  /\
  (mcp.content r = [] \/
   (exists block rest,
      mcp.content r = block :: rest /\
      mcp.text block = None /\ mcp.data block = None) ->
   result_of (_call_tool json_loads srv tool_name params self)
   = Return (PyCallToolResult r)).
Proof.
  intros Hs Hr _.
  rewrite (result_of_replied _ _ _ _ _ _ Hs Hr).
  unfold parse_result.
  split; [|split].
  - intros block rest msg Hc Ht. rewrite Hc, Ht. split; [|split].
    + intros v Hv. rewrite Hv. reflexivity.
    + intros e He Hd. rewrite He, Hd. reflexivity.
    + intros e He Hd. rewrite He, Hd. reflexivity.
  - intros block rest d Hc Ht Hd. rewrite Hc, Ht, Hd. reflexivity.
  - intros [Hc | (block & rest & Hc & Ht & Hd)].
    + rewrite Hc. reflexivity.
    + rewrite Hc, Ht, Hd. reflexivity.
Qed.

Lemma reported_failure_is_decoded_like_any_reply_witness :
  result_of
    (_call_tool Examples.json_loads
       (Examples.server_replying
          (Examples.error_reply
             [Examples.TextContent Examples.tool_failure_text]))
       "has_openshift_regressed"
       (Some [("version", PyStr "4.19"); ("lookback", PyStr "15")])
       Examples.client)
  = Return (PyStr Examples.tool_failure_text).
Proof.
  pose proof (reported_failure_is_decoded_like_any_reply
                Examples.json_loads
                (Examples.server_replying
                   (Examples.error_reply
                      [Examples.TextContent Examples.tool_failure_text]))
                Examples.client "has_openshift_regressed"
                (Some [("version", PyStr "4.19"); ("lookback", PyStr "15")])
                (Examples.error_reply
                   [Examples.TextContent Examples.tool_failure_text])
                (established_server_replying _ _) eq_refl eq_refl)
    as [Htext _].
  destruct (Htext (Examples.TextContent Examples.tool_failure_text) []
                  Examples.tool_failure_text eq_refl eq_refl)
    as (_ & Hraw & _).
  exact (Hraw _ eq_refl eq_refl).
Defined.

(** C4, as stated, fails: when [initialize] raises [RuntimeError] on a
    protocol version it does not know, what leaves the call is that
    exception inside the [ExceptionGroup]s of the two exits; neither it
    nor the exception it holds is a [ConnectionError]. *)
Lemma handshake_failure_need_not_be_ConnectionError :
  handshake_fails
    (Examples.server_rejecting_handshake Examples.unsupported_version)
    (mcp_url Examples.client) Examples.unsupported_version
  /\
  result_of
    (_call_tool Examples.json_loads
       (Examples.server_rejecting_handshake Examples.unsupported_version)
       "get_release_date" (Some [("version", PyStr "4.20")])
       Examples.client)
  = Raise
      (ExceptionGroup "unhandled errors in a TaskGroup"
         [ExceptionGroup "unhandled errors in a TaskGroup"
            [Examples.unsupported_version]])
  /\
  is_ConnectionError
    (ExceptionGroup "unhandled errors in a TaskGroup"
       [ExceptionGroup "unhandled errors in a TaskGroup"
          [Examples.unsupported_version]]) = false
  /\
  is_ConnectionError Examples.unsupported_version = false.
Proof.
  split; [|split; [|split]; reflexivity].
  right. right. repeat split.
Qed.

(** C4, amended.  When opening the connection, entering the session or
    the handshake raises, the call raises and no tool request has been
    sent.  The client catches and converts nothing: the caller gets the
    failure itself when the connection could not be opened, what the
    exit of the connection makes of it when the session could not be
    entered, and what the two exits make of it, the session's first,
    when [initialize] raised. *)
Theorem handshake_failure_leaves_through_the_exits
    json_loads srv self tool_name params e :
  (t_connect srv (mcp_url self) = Some e ->
   result_of (_call_tool json_loads srv tool_name params self) = Raise e /\
   tool_requests (trace_of (_call_tool json_loads srv tool_name params self))
   = [])
  /\
  (t_connect srv (mcp_url self) = None -> t_session_enter srv = Some e ->
   result_of (_call_tool json_loads srv tool_name params self)
   = Raise (t_client_exit srv e) /\
   tool_requests (trace_of (_call_tool json_loads srv tool_name params self))
   = [])
  /\
  (t_connect srv (mcp_url self) = None -> t_session_enter srv = None ->
   t_initialize srv = Some e ->
   result_of (_call_tool json_loads srv tool_name params self)
   = Raise (t_client_exit srv (t_session_exit srv e)) /\
   tool_requests (trace_of (_call_tool json_loads srv tool_name params self))
   = []).
Proof.
  rewrite _call_tool_run. split; [|split].
  - intros Hc. rewrite Hc. split; reflexivity.
  - intros Hc He. rewrite Hc, He. split; reflexivity.
  - intros Hc He Hi. rewrite Hc, He, Hi. split; reflexivity.
Qed.

(** A refused connection that shows at [initialize]: the caller gets the
    [ConnectionRefusedError] two task groups deep, and nothing was
    sent. *)
Lemma handshake_failure_leaves_through_the_exits_witness :
  result_of
    (_call_tool Examples.json_loads
       (Examples.server_rejecting_handshake
          (Exn "ConnectionRefusedError" "[Errno 111] Connection refused"))
       "get_release_date" (Some [("version", PyStr "4.20")])
       Examples.client)
  = Raise
      (ExceptionGroup "unhandled errors in a TaskGroup"
         [ExceptionGroup "unhandled errors in a TaskGroup"
            [Exn "ConnectionRefusedError" "[Errno 111] Connection refused"]])
  /\
  tool_requests
    (trace_of
       (_call_tool Examples.json_loads
          (Examples.server_rejecting_handshake
             (Exn "ConnectionRefusedError" "[Errno 111] Connection refused"))
          "get_release_date" (Some [("version", PyStr "4.20")])
          Examples.client))
  = [].
Proof.
  pose proof (handshake_failure_leaves_through_the_exits
                Examples.json_loads
                (Examples.server_rejecting_handshake
                   (Exn "ConnectionRefusedError"
                      "[Errno 111] Connection refused"))
                Examples.client "get_release_date"
                (Some [("version", PyStr "4.20")])
                (Exn "ConnectionRefusedError"
                   "[Errno 111] Connection refused"))
    as (_ & _ & Hinit).
  exact (Hinit eq_refl eq_refl eq_refl).
Defined.

(** ** First block only *)

(** C6, as stated, fails: two replies with the same first block, one of
    them with a second block, give different results when that first
    block has neither [text] nor [data]. *)
Lemma later_blocks_show_in_whole_reply :
  hd_error (mcp.content (Examples.reply [Examples.EmbeddedResource]))
  = hd_error
      (mcp.content
         (Examples.reply
            [Examples.EmbeddedResource; Examples.TextContent "2024-06-01"]))
  /\
  result_of
    (_call_tool Examples.json_loads
       (Examples.server_replying (Examples.reply [Examples.EmbeddedResource]))
       "get_orion_metrics" (Some [("config", PyStr "small-scale-udn-l3.yaml")])
       Examples.client)
  <>
  result_of
    (_call_tool Examples.json_loads
       (Examples.server_replying
          (Examples.reply
             [Examples.EmbeddedResource; Examples.TextContent "2024-06-01"]))
       "get_orion_metrics" (Some [("config", PyStr "small-scale-udn-l3.yaml")])
       Examples.client).
Proof.
  split; [reflexivity|].
  cbv [result_of]. cbn. intros H. discriminate H.
Qed.

(** C6, amended.  When the first content block has [text] or [data], the
    result is a function of that block alone: two replies that agree on
    it give the same result, whatever blocks follow and whatever else the
    replies hold, the decoder and the exits of the two blocks being the
    same for both.  (When it has neither, the result is the whole
    reply.) *)
Theorem classified_result_depends_on_first_block_only
    json_loads srv1 srv2 self1 self2 tool1 tool2 params1 params2
    r1 r2 block rest1 rest2 :
  session_established srv1 (mcp_url self1) ->
  session_established srv2 (mcp_url self2) ->
  (forall e, t_session_exit srv1 e = t_session_exit srv2 e) ->
  (forall e, t_client_exit srv1 e = t_client_exit srv2 e) ->
  t_call_tool srv1 tool1 (request_data params1) = Return r1 ->
  t_call_tool srv2 tool2 (request_data params2) = Return r2 ->
  mcp.content r1 = block :: rest1 ->
  mcp.content r2 = block :: rest2 ->
  hasattr (mcp.text block) = true \/ hasattr (mcp.data block) = true ->
  result_of (_call_tool json_loads srv1 tool1 params1 self1)
  = result_of (_call_tool json_loads srv2 tool2 params2 self2).
Proof.
  intros Hs1 Hs2 Hse Hce Hr1 Hr2 Hc1 Hc2 Hattr.
  rewrite (result_of_replied _ _ _ _ _ _ Hs1 Hr1).
  rewrite (result_of_replied _ _ _ _ _ _ Hs2 Hr2).
  unfold parse_result. rewrite Hc1, Hc2.
  destruct (mcp.text block) as [t|].
  - destruct (json_loads t) as [v|e]; [reflexivity|].
    destruct (is_JSONDecodeError e); [reflexivity|].
    unfold leave_blocks, leave_block. rewrite Hse, Hce. reflexivity.
  - destruct (mcp.data block) as [d|]; [reflexivity|].
    destruct Hattr; discriminate.
Qed.

Lemma classified_result_depends_on_first_block_only_witness :
  result_of
    (_call_tool Examples.json_loads
       (Examples.server_replying
          (Examples.reply [Examples.TextContent "2024-06-01"]))
       "get_release_date" (Some [("version", PyStr "4.20")])
       Examples.client)
  = result_of
      (_call_tool Examples.json_loads
         (Examples.server_replying
            (Examples.error_reply
               [Examples.TextContent "2024-06-01";
                Examples.ImageContent "aGVsbG8=" "image/png"]))
         "get_release_date" (Some [("version", PyStr "4.20")])
         Examples.client).
Proof.
  apply (classified_result_depends_on_first_block_only
           Examples.json_loads
           (Examples.server_replying
              (Examples.reply [Examples.TextContent "2024-06-01"]))
           (Examples.server_replying
              (Examples.error_reply
                 [Examples.TextContent "2024-06-01";
                  Examples.ImageContent "aGVsbG8=" "image/png"]))
           Examples.client Examples.client
           "get_release_date" "get_release_date"
           (Some [("version", PyStr "4.20")])
           (Some [("version", PyStr "4.20")])
           (Examples.reply [Examples.TextContent "2024-06-01"])
           (Examples.error_reply
              [Examples.TextContent "2024-06-01";
               Examples.ImageContent "aGVsbG8=" "image/png"])
           (Examples.TextContent "2024-06-01")
           [] [Examples.ImageContent "aGVsbG8=" "image/png"]
           (established_server_replying _ _)
           (established_server_replying _ _)
           (fun e => eq_refl) (fun e => eq_refl)
           eq_refl eq_refl eq_refl eq_refl).
  left. reflexivity.
Defined.

(** ** The per-tool methods *)

Lemma sends_established json_loads srv self tool_name bag :
  session_established srv (mcp_url self) ->
  sends (trace_of (_call_tool json_loads srv tool_name (Some bag) self))
        tool_name bag.
Proof.
  intros Hs. unfold sends.
  rewrite (tool_requests_established _ _ _ _ _ Hs).
  rewrite request_data_params. reflexivity.
Qed.

(** C8, as stated, fails: [has_nightly_regressed] called with
    [previous_nightly] and [configs] left at their defaults (the empty
    string) still sends both keys. *)
Lemma defaulted_parameters_are_sent :
  sends
    (trace_of
       (has_nightly_regressed Examples.json_loads
          (Examples.server_replying (Examples.reply []))
          "4.22.0-0.nightly-2026-01-05-203335"
          Examples.default_previous_nightly
          Examples.default_nightly_lookback
          Examples.default_configs
          Examples.client))
    "has_nightly_regressed"
    [("nightly_version", PyStr "4.22.0-0.nightly-2026-01-05-203335");
     ("previous_nightly", PyStr Examples.default_previous_nightly);
     ("lookback", PyStr "30");
     ("configs", PyStr Examples.default_configs)]
  /\
  dict_contains "previous_nightly"
    [("nightly_version", PyStr "4.22.0-0.nightly-2026-01-05-203335");
     ("previous_nightly", PyStr Examples.default_previous_nightly);
     ("lookback", PyStr "30");
     ("configs", PyStr Examples.default_configs)] = true
  /\
  dict_contains "configs"
    [("nightly_version", PyStr "4.22.0-0.nightly-2026-01-05-203335");
     ("previous_nightly", PyStr Examples.default_previous_nightly);
     ("lookback", PyStr "30");
     ("configs", PyStr Examples.default_configs)] = true.
Proof.
  split; [|split; reflexivity].
  unfold has_nightly_regressed.
  apply sends_established. apply established_server_replying.
Qed.

(** C8, amended.  The one parameter that is sent conditionally is [since],
    of [openshift_report_on] and of [metrics_correlation]: its key is in
    the bag exactly when the caller passes a non-empty string, and is
    absent when it is left at its default [None].  Every other parameter
    of every per-tool method is always in the bag, with the value the
    method received, default or not; [get_orion_configs] sends the empty
    bag. *)
Theorem only_since_is_sent_conditionally json_loads srv self :
  session_established srv (mcp_url self) ->
  (forall versions lookback since metric config options,
     sends
       (trace_of (openshift_report_on json_loads srv versions lookback since
                    metric config options self))
       "openshift_report_on"
       ([("versions", PyStr versions); ("lookback", PyStr lookback);
         ("metric", PyStr metric); ("config", PyStr config);
         ("options", PyStr options)]
        ++ match since with
           | Some (String c s) => [("since", PyStr (String c s))]
           | Some EmptyString => []
           | None => []
           end))
  /\
  (forall metric1 metric2 config since version lookback,
     sends
       (trace_of (metrics_correlation json_loads srv metric1 metric2 config
                    since version lookback self))
       "metrics_correlation"
       ([("metric1", PyStr metric1); ("metric2", PyStr metric2);
         ("config", PyStr config); ("version", PyStr version);
         ("lookback", PyStr lookback)]
        ++ match since with
           | Some (String c s) => [("since", PyStr (String c s))]
           | Some EmptyString => []
           | None => []
           end))
  /\
  (forall nightly_version previous_nightly lookback configs,
     sends
       (trace_of (has_nightly_regressed json_loads srv nightly_version
                    previous_nightly lookback configs self))
       "has_nightly_regressed"
       [("nightly_version", PyStr nightly_version);
        ("previous_nightly", PyStr previous_nightly);
        ("lookback", PyStr lookback);
        ("configs", PyStr configs)])
  /\
  (forall version,
     sends (trace_of (get_release_date json_loads srv version self))
       "get_release_date" [("version", PyStr version)])
  /\
  sends (trace_of (get_orion_configs json_loads srv self))
    "get_orion_configs" []
  /\
  (forall config,
     sends (trace_of (get_orion_metrics json_loads srv config self))
       "get_orion_metrics" [("config", PyStr config)])
  /\
  (forall version lookback organization repository pull_request,
     sends
       (trace_of (openshift_report_on_pr json_loads srv version lookback
                    organization repository pull_request self))
       "openshift_report_on_pr"
       [("version", PyStr version); ("lookback", PyStr lookback);
        ("organization", PyStr organization);
        ("repository", PyStr repository);
        ("pull_request", PyStr pull_request)])
  /\
  (forall version lookback,
     sends (trace_of (has_openshift_regressed json_loads srv version lookback
                        self))
       "has_openshift_regressed"
       [("version", PyStr version); ("lookback", PyStr lookback)])
  /\
  (forall version lookback,
     sends (trace_of (has_networking_regressed json_loads srv version lookback
                        self))
       "has_networking_regressed"
       [("version", PyStr version); ("lookback", PyStr lookback)]).
Proof.
  intros Hs.
  split; [|split; [|split; [|split; [|split; [|split; [|split; [|split]]]]]]].
  - intros. unfold openshift_report_on, openshift_report_on_params.
    destruct since as [[|c s]|];
      exact (sends_established json_loads srv self _ _ Hs).
  - intros. unfold metrics_correlation, metrics_correlation_params.
    destruct since as [[|c s]|];
      exact (sends_established json_loads srv self _ _ Hs).
  - intros. unfold has_nightly_regressed.
    exact (sends_established json_loads srv self _ _ Hs).
  - intros. unfold get_release_date.
    exact (sends_established json_loads srv self _ _ Hs).
  - unfold get_orion_configs, sends.
    rewrite (tool_requests_established _ _ _ _ _ Hs).
    rewrite request_data_params. reflexivity.
  - intros. unfold get_orion_metrics.
    exact (sends_established json_loads srv self _ _ Hs).
  - intros. unfold openshift_report_on_pr.
    exact (sends_established json_loads srv self _ _ Hs).
  - intros. unfold has_openshift_regressed.
    exact (sends_established json_loads srv self _ _ Hs).
  - intros. unfold has_networking_regressed.
    exact (sends_established json_loads srv self _ _ Hs).
Qed.

Lemma only_since_is_sent_conditionally_witness :
  sends
    (trace_of
       (openshift_report_on Examples.json_loads
          (Examples.server_replying (Examples.reply []))
          "4.19" "15" None "podReadyLatency_P99" "small-scale-udn-l3.yaml"
          "image" Examples.client))
    "openshift_report_on"
    [("versions", PyStr "4.19"); ("lookback", PyStr "15");
     ("metric", PyStr "podReadyLatency_P99");
     ("config", PyStr "small-scale-udn-l3.yaml");
     ("options", PyStr "image")]
  /\
  sends
    (trace_of
       (openshift_report_on Examples.json_loads
          (Examples.server_replying (Examples.reply []))
          "4.19" "15" (Some "2025-01-01") "podReadyLatency_P99"
          "small-scale-udn-l3.yaml" "image" Examples.client))
    "openshift_report_on"
    [("versions", PyStr "4.19"); ("lookback", PyStr "15");
     ("metric", PyStr "podReadyLatency_P99");
     ("config", PyStr "small-scale-udn-l3.yaml");
     ("options", PyStr "image"); ("since", PyStr "2025-01-01")].
Proof.
  pose proof (only_since_is_sent_conditionally Examples.json_loads
                (Examples.server_replying (Examples.reply []))
                Examples.client (established_server_replying _ _))
    as [Hreport _].
  split.
  - exact (Hreport "4.19" "15" None "podReadyLatency_P99"
                   "small-scale-udn-l3.yaml" "image").
  - exact (Hreport "4.19" "15" (Some "2025-01-01") "podReadyLatency_P99"
                   "small-scale-udn-l3.yaml" "image").
Defined.

(** ** Discovery *)

Lemma lookup_map {A B : Type} (f : A -> B) (l : list A) (i : nat) :
  map f l !! i = f <$> (l !! i).
Proof.
  revert i. induction l as [|a l IH]; intros [|i]; cbn; auto.
Qed.

Lemma list_tools_established srv self tl :
  session_established srv (mcp_url self) ->
  t_list_tools srv = Return tl ->
  result_of (list_tools srv self) = Return (map tool_descriptor (tools tl)).
Proof.
  intros Hs Hr. rewrite list_tools_scope.
  rewrite (session_scope_established srv _ _ Hs).
  unfold bind, session_list_tools, emit. cbn. rewrite Hr. reflexivity.
Qed.

Lemma list_resources_established srv self rl :
  session_established srv (mcp_url self) ->
  t_list_resources srv = Return rl ->
  result_of (list_resources srv self)
  = Return (map resource_descriptor (resources rl)).
Proof.
  intros Hs Hr. rewrite list_resources_scope.
  rewrite (session_scope_established srv _ _ Hs).
  unfold bind, session_list_resources, emit. cbn. rewrite Hr. reflexivity.
Qed.

(** C9.  [list_tools] and [list_resources] return one descriptor per item
    of the server's collection, at the same index: as many descriptors as
    items, the i-th descriptor holding the [name], [description] and
    [inputSchema] of the i-th tool (the [uri], [name] and [description] of
    the i-th resource) as they are.  Nothing is dropped, merged or
    reordered. *)
Theorem discovery_maps_collection_in_order srv self :
  session_established srv (mcp_url self) ->
  (forall tl, t_list_tools srv = Return tl ->
     exists ds,
       result_of (list_tools srv self) = Return ds /\
       length ds = length (tools tl) /\
       forall i tool, tools tl !! i = Some tool ->
         ds !! i = Some [("name", PyStr (Tool.name tool));
                         ("description", py_optstr (Tool.description tool));
                         ("inputSchema", PyDict (Tool.inputSchema tool))])
  /\
  (forall rl, t_list_resources srv = Return rl ->
     exists ds,
       result_of (list_resources srv self) = Return ds /\
       length ds = length (resources rl) /\
       forall i resource, resources rl !! i = Some resource ->
         ds !! i = Some [("uri", PyStr (Resource.uri resource));
                         ("name", PyStr (Resource.name resource));
                         ("description",
                          py_optstr (Resource.description resource))]).
Proof.
  intros Hs. split.
  - intros tl Hr. exists (map tool_descriptor (tools tl)).
    split; [exact (list_tools_established _ _ _ Hs Hr)|].
    split; [apply length_map|].
    intros i tool Hi. rewrite lookup_map, Hi. reflexivity.
  - intros rl Hr. exists (map resource_descriptor (resources rl)).
    split; [exact (list_resources_established _ _ _ Hs Hr)|].
    split; [apply length_map|].
    intros i resource Hi. rewrite lookup_map, Hi. reflexivity.
Qed.

(** A server advertising [A; B; A; C]: four descriptors, in that order,
    the repeated tool kept. *)
Lemma discovery_maps_collection_in_order_witness :
  exists ds,
    result_of
      (list_tools (Examples.server_replying (Examples.reply []))
         Examples.client) = Return ds /\
    map (dict_get "name") ds
    = [Some (PyStr "A"); Some (PyStr "B"); Some (PyStr "A"); Some (PyStr "C")].
Proof.
  destruct (discovery_maps_collection_in_order
              (Examples.server_replying (Examples.reply []))
              Examples.client (established_server_replying _ _))
    as [Htools _].
  destruct (Htools _ eq_refl) as (ds & Hres & _ & _).
  exists ds. split; [exact Hres|].
  cbv in Hres. injection Hres as <-. reflexivity.
Defined.

(** ** What a call does to the client *)

(** C10.  Whatever the server does, a tool call, [list_tools] and
    [list_resources] leave [server_url] and [mcp_url] as they were, and
    [session_id] is the one field they write.  When the handshake
    succeeds it is set to the id of the new session, after [initialize]
    and before the request is sent; when the handshake fails it is not
    written at all. *)
Theorem calls_preserve_endpoints_and_set_session_id_first
    json_loads srv self :
  (forall tool_name params,
     client_frame srv self
       (self_of (_call_tool json_loads srv tool_name params self))
       (trace_of (_call_tool json_loads srv tool_name params self))
       (EvCallTool tool_name (request_data params)))
  /\
  client_frame srv self
    (self_of (list_tools srv self)) (trace_of (list_tools srv self))
    EvListTools
  /\
  client_frame srv self
    (self_of (list_resources srv self)) (trace_of (list_resources srv self))
    EvListResources.
Proof.
  assert (Hno : forall url (e : exn) (tr : list event),
             tr = [EvConnect url] \/
             tr = [EvConnect url; EvSessionEnter; EvDisconnect] \/
             tr = [EvConnect url; EvSessionEnter; EvInitialize;
                   EvSessionExit; EvDisconnect] ->
             (forall sid, ~ In (EvSetSessionId sid) tr) /\ requests tr = []).
  { intros url e tr [-> | [-> | ->]]; (split; [|reflexivity]);
      intros sid H; cbn in H;
      repeat (destruct H as [H|H]; [discriminate|]); exact H. }
  unfold client_frame. split; [|split].
  - intros tool_name params. rewrite _call_tool_run.
    destruct (t_connect srv (mcp_url self)) as [ec|] eqn:Hc;
      [|destruct (t_session_enter srv) as [ee|] eqn:He;
        [|destruct (t_initialize srv) as [ei|] eqn:Hi]];
      unfold self_of, trace_of; cbn [fst snd];
      (split; [reflexivity|]); (split; [reflexivity|]); split;
      try (intros (Hc' & He' & Hi'); congruence);
      try (intros e _; split; [reflexivity|]; apply (Hno (mcp_url self) e);
           auto).
    + intros _. split; reflexivity.
    + intros e [Hf | [(Hf & Hf') | (Hf & Hf' & Hf'')]]; congruence.
  - rewrite list_tools_run.
    destruct (t_connect srv (mcp_url self)) as [ec|] eqn:Hc;
      [|destruct (t_session_enter srv) as [ee|] eqn:He;
        [|destruct (t_initialize srv) as [ei|] eqn:Hi]];
      unfold self_of, trace_of; cbn [fst snd];
      (split; [reflexivity|]); (split; [reflexivity|]); split;
      try (intros (Hc' & He' & Hi'); congruence);
      try (intros e _; split; [reflexivity|]; apply (Hno (mcp_url self) e);
           auto).
    + intros _. split; reflexivity.
    + intros e [Hf | [(Hf & Hf') | (Hf & Hf' & Hf'')]]; congruence.
  - rewrite list_resources_run.
    destruct (t_connect srv (mcp_url self)) as [ec|] eqn:Hc;
      [|destruct (t_session_enter srv) as [ee|] eqn:He;
        [|destruct (t_initialize srv) as [ei|] eqn:Hi]];
      unfold self_of, trace_of; cbn [fst snd];
      (split; [reflexivity|]); (split; [reflexivity|]); split;
      try (intros (Hc' & He' & Hi'); congruence);
      try (intros e _; split; [reflexivity|]; apply (Hno (mcp_url self) e);
           auto).
    + intros _. split; reflexivity.
    + intros e [Hf | [(Hf & Hf') | (Hf & Hf' & Hf'')]]; congruence.
Qed.

(** Both cases on concrete servers: an accepted handshake records the new
    id before the request; a rejected one leaves the id of the earlier
    session in place. *)
Lemma calls_preserve_endpoints_and_set_session_id_first_witness :
  (session_id
     (self_of
        (list_tools (Examples.server_replying (Examples.reply []))
           Examples.client)) = Some "session-1" /\
   trace_of
     (list_tools (Examples.server_replying (Examples.reply []))
        Examples.client)
   = [EvConnect "http://localhost:3030/mcp"; EvSessionEnter; EvInitialize;
      EvSetSessionId (Some "session-1"); EvListTools;
      EvSessionExit; EvDisconnect])
  /\
  session_id
    (self_of
       (list_tools
          (Examples.server_rejecting_handshake Examples.unsupported_version)
          (with_session_id Examples.client (Some "session-0"))))
  = Some "session-0".
Proof.
  split.
  - destruct (calls_preserve_endpoints_and_set_session_id_first
                Examples.json_loads
                (Examples.server_replying (Examples.reply []))
                Examples.client)
      as (_ & (_ & _ & Hup & _) & _).
    apply Hup. repeat split.
  - destruct (calls_preserve_endpoints_and_set_session_id_first
                Examples.json_loads
                (Examples.server_rejecting_handshake
                   Examples.unsupported_version)
                (with_session_id Examples.client (Some "session-0")))
      as (_ & (_ & _ & _ & Hdown) & _).
    destruct (Hdown Examples.unsupported_version) as (Hid & _).
    + right. right. repeat split.
    + exact Hid.
Defined.

(** A run against a concrete server, step by step. *)
Example get_release_date_run :
  get_release_date Examples.json_loads
    (Examples.server_replying
       (Examples.reply [Examples.TextContent "2024-06-01"]))
    "4.20" Examples.client
  = (Return (PyStr "2024-06-01"),
     {| server_url := "http://localhost:3030";
        mcp_url := "http://localhost:3030/mcp";
        session_id := Some "session-1" |},
     [EvConnect "http://localhost:3030/mcp"; EvSessionEnter; EvInitialize;
      EvSetSessionId (Some "session-1");
      EvCallTool "get_release_date"
        (PyDict [("params", PyDict [("version", PyStr "4.20")])]);
      EvSessionExit; EvDisconnect]).
Proof. reflexivity. Qed.

(** A handshake that fails: the session is left, the connection closed,
    and the client is as it was. *)
Example refused_handshake_run :
  get_release_date Examples.json_loads
    (Examples.server_rejecting_handshake Examples.unsupported_version)
    "4.20" Examples.client
  = (Raise
       (ExceptionGroup "unhandled errors in a TaskGroup"
          [ExceptionGroup "unhandled errors in a TaskGroup"
             [Examples.unsupported_version]]),
     Examples.client,
     [EvConnect "http://localhost:3030/mcp"; EvSessionEnter; EvInitialize;
      EvSessionExit; EvDisconnect]).
Proof. reflexivity. Qed.

(** ** Every path of a call *)

(** X1.  The events of a tool call are fixed by how far the handshake
    gets: a refused connection is the only event; once the connection is
    open it is closed again, and once the session is entered it is left
    again, on every path; the tool request goes out once, and only when
    all three steps succeeded. *)
Theorem call_tool_trace_by_handshake json_loads srv tool_name params self :
  trace_of (_call_tool json_loads srv tool_name params self) =
  match t_connect srv (mcp_url self),
        t_session_enter srv, t_initialize srv with
  | Some _, _, _ => [EvConnect (mcp_url self)]
  | None, Some _, _ =>
      [EvConnect (mcp_url self); EvSessionEnter; EvDisconnect]
  | None, None, Some _ =>
      [EvConnect (mcp_url self); EvSessionEnter; EvInitialize;
       EvSessionExit; EvDisconnect]
  | None, None, None =>
      [EvConnect (mcp_url self); EvSessionEnter; EvInitialize;
       EvSetSessionId (t_get_session_id srv);
       EvCallTool tool_name
         (PyDict [("params",
                   PyDict (match params with Some P => P | None => [] end))]);
       EvSessionExit; EvDisconnect]
  end.
Proof.
  rewrite _call_tool_run.
  destruct (t_connect srv (mcp_url self)); [reflexivity|].
  destruct (t_session_enter srv); [reflexivity|].
  destruct (t_initialize srv); [reflexivity|].
  unfold trace_of, session_trace. cbn [snd].
  rewrite request_data_params. destruct params; reflexivity.
Qed.

(** X2.  The same for the two discovery calls: the connection and the
    session are always released, and the one discovery request goes out
    only after a complete handshake; no tool request is ever sent. *)
Theorem discovery_trace_by_handshake srv self :
  trace_of (list_tools srv self) =
  match t_connect srv (mcp_url self),
        t_session_enter srv, t_initialize srv with
  | Some _, _, _ => [EvConnect (mcp_url self)]
  | None, Some _, _ =>
      [EvConnect (mcp_url self); EvSessionEnter; EvDisconnect]
  | None, None, Some _ =>
      [EvConnect (mcp_url self); EvSessionEnter; EvInitialize;
       EvSessionExit; EvDisconnect]
  | None, None, None =>
      [EvConnect (mcp_url self); EvSessionEnter; EvInitialize;
       EvSetSessionId (t_get_session_id srv); EvListTools;
       EvSessionExit; EvDisconnect]
  end
  /\
  trace_of (list_resources srv self) =
  match t_connect srv (mcp_url self),
        t_session_enter srv, t_initialize srv with
  | Some _, _, _ => [EvConnect (mcp_url self)]
  | None, Some _, _ =>
      [EvConnect (mcp_url self); EvSessionEnter; EvDisconnect]
  | None, None, Some _ =>
      [EvConnect (mcp_url self); EvSessionEnter; EvInitialize;
       EvSessionExit; EvDisconnect]
  | None, None, None =>
      [EvConnect (mcp_url self); EvSessionEnter; EvInitialize;
       EvSetSessionId (t_get_session_id srv); EvListResources;
       EvSessionExit; EvDisconnect]
  end.
Proof.
  rewrite list_tools_run, list_resources_run.
  destruct (t_connect srv (mcp_url self)); [split; reflexivity|].
  destruct (t_session_enter srv); [split; reflexivity|].
  destruct (t_initialize srv); split; reflexivity.
Qed.

(** X3.  When the connection, the session or the handshake fails, each of
    the three methods hands the client back exactly as it was: in
    particular [session_id] still holds the id of an earlier session, if
    there was one.  All three raise, and raise the same thing: the
    failure as the exits of the blocks already entered let it out; the
    discovery methods, too, have sent no request. *)
Theorem handshake_failure_leaves_client_untouched
    json_loads srv self e :
  handshake_fails srv (mcp_url self) e ->
  (forall tool_name params,
     result_of (_call_tool json_loads srv tool_name params self)
     = Raise (handshake_exception srv (mcp_url self) e) /\
     self_of (_call_tool json_loads srv tool_name params self) = self)
  /\
  (result_of (list_tools srv self)
   = Raise (handshake_exception srv (mcp_url self) e) /\
   self_of (list_tools srv self) = self /\
   requests (trace_of (list_tools srv self)) = [])
  /\
  (result_of (list_resources srv self)
   = Raise (handshake_exception srv (mcp_url self) e) /\
   self_of (list_resources srv self) = self /\
   requests (trace_of (list_resources srv self)) = []).
Proof.
  intros Hf. unfold handshake_exception. split; [|split].
  - intros tool_name params. rewrite _call_tool_run.
    destruct Hf as [Hc | [(Hc & He) | (Hc & He & Hi)]];
      rewrite ?Hc, ?He, ?Hi; split; reflexivity.
  - rewrite list_tools_run.
    destruct Hf as [Hc | [(Hc & He) | (Hc & He & Hi)]];
      rewrite ?Hc, ?He, ?Hi; repeat split; reflexivity.
  - rewrite list_resources_run.
    destruct Hf as [Hc | [(Hc & He) | (Hc & He & Hi)]];
      rewrite ?Hc, ?He, ?Hi; repeat split; reflexivity.
Qed.

(** A client that carries the id of an earlier session keeps it when the
    next handshake is rejected, and the caller gets the rejection inside
    two exception groups. *)
Lemma handshake_failure_leaves_client_untouched_witness :
  result_of
    (list_tools
       (Examples.server_rejecting_handshake Examples.unsupported_version)
       (with_session_id Examples.client (Some "session-1")))
  = Raise
      (ExceptionGroup "unhandled errors in a TaskGroup"
         [ExceptionGroup "unhandled errors in a TaskGroup"
            [Examples.unsupported_version]])
  /\
  self_of
    (list_tools
       (Examples.server_rejecting_handshake Examples.unsupported_version)
       (with_session_id Examples.client (Some "session-1")))
  = with_session_id Examples.client (Some "session-1").
Proof.
  pose proof (handshake_failure_leaves_client_untouched
                Examples.json_loads
                (Examples.server_rejecting_handshake
                   Examples.unsupported_version)
                (with_session_id Examples.client (Some "session-1"))
                Examples.unsupported_version) as H.
  destruct H as (_ & (Hres & Hself & _) & _).
  - right. right. repeat split.
  - split; [exact Hres | exact Hself].
Defined.

(** X4.  Once the handshake has succeeded, each of the three methods
    leaves the client with [session_id] replaced by what
    [get_session_id()] returned and nothing else changed, whether the
    request then succeeds, raises, or its reply fails to decode.  When
    [get_session_id()] returns [None], an earlier id is erased. *)
Theorem established_session_replaces_session_id json_loads srv self :
  session_established srv (mcp_url self) ->
  (forall tool_name params,
     self_of (_call_tool json_loads srv tool_name params self)
     = {| server_url := server_url self;
          mcp_url := mcp_url self;
          session_id := t_get_session_id srv |})
  /\
  self_of (list_tools srv self)
  = {| server_url := server_url self;
       mcp_url := mcp_url self;
       session_id := t_get_session_id srv |}
  /\
  self_of (list_resources srv self)
  = {| server_url := server_url self;
       mcp_url := mcp_url self;
       session_id := t_get_session_id srv |}.
Proof.
  intros (Hc & He & Hi). split; [|split].
  - intros tool_name params.
    rewrite _call_tool_run, Hc, He, Hi. reflexivity.
  - rewrite list_tools_run, Hc, He, Hi. reflexivity.
  - rewrite list_resources_run, Hc, He, Hi. reflexivity.
Qed.

Lemma established_session_replaces_session_id_witness :
  self_of
    (_call_tool Examples.json_loads
       (MainExamples.server_failing_request MainExamples.timeout)
       "get_release_date" (Some [("version", PyStr "4.20")])
       (with_session_id Examples.client (Some "session-1")))
  = {| server_url := "http://localhost:3030";
       mcp_url := "http://localhost:3030/mcp";
       session_id := Some "session-2" |}.
Proof.
  pose proof (established_session_replaces_session_id
                Examples.json_loads
                (MainExamples.server_failing_request MainExamples.timeout)
                (with_session_id Examples.client (Some "session-1")))
    as H.
  destruct H as (Hcall & _).
  - repeat split.
  - exact (Hcall "get_release_date" (Some [("version", PyStr "4.20")])).
Defined.

(** X5.  With the session up, an exception raised by the request itself
    is not caught by the method: it is pending when the two blocks are
    left, and the caller gets what the exit of the session and then the
    exit of the connection make of it.  This holds of [session.call_tool]
    in [_call_tool], of [session.list_tools] in [list_tools] and of
    [session.list_resources] in [list_resources]; when both exits let an
    exception through, the caller gets the request's own exception. *)
Theorem request_failure_leaves_through_the_exits json_loads srv self e :
  session_established srv (mcp_url self) ->
  (forall tool_name params,
     t_call_tool srv tool_name (request_data params) = Raise e ->
     result_of (_call_tool json_loads srv tool_name params self)
     = Raise (t_client_exit srv (t_session_exit srv e)))
  /\
  (t_list_tools srv = Raise e ->
   result_of (list_tools srv self)
   = Raise (t_client_exit srv (t_session_exit srv e)))
  /\
  (t_list_resources srv = Raise e ->
   result_of (list_resources srv self)
   = Raise (t_client_exit srv (t_session_exit srv e))).
Proof.
  intros (Hc & He & Hi). split; [|split].
  - intros tool_name params Hr.
    rewrite _call_tool_run, Hc, He, Hi, Hr. reflexivity.
  - intros Hr. rewrite list_tools_run, Hc, He, Hi, Hr. reflexivity.
  - intros Hr. rewrite list_resources_run, Hc, He, Hi, Hr. reflexivity.
Qed.

Lemma request_failure_leaves_through_the_exits_witness :
  result_of
    (list_resources
       (MainExamples.server_failing_request MainExamples.timeout)
       Examples.client)
  = Raise
      (ExceptionGroup "unhandled errors in a TaskGroup"
         [ExceptionGroup "unhandled errors in a TaskGroup"
            [MainExamples.timeout]]).
Proof.
  pose proof (request_failure_leaves_through_the_exits Examples.json_loads
                (MainExamples.server_failing_request MainExamples.timeout)
                Examples.client MainExamples.timeout) as H.
  destruct H as (_ & _ & Hres).
  - repeat split.
  - exact (Hres eq_refl).
Defined.

(** X6.  [except json.JSONDecodeError] catches nothing else: when
    [json.loads] raises an exception of another class on the text of the
    first block, the text is not returned; the exception is pending when
    the two blocks are left, and the caller gets what their exits make
    of it. *)
Theorem other_decoder_exception_leaves_the_call
    json_loads srv self tool_name params r block rest t e :
  session_established srv (mcp_url self) ->
  t_call_tool srv tool_name (request_data params) = Return r ->
  mcp.content r = block :: rest ->
  mcp.text block = Some t ->
  json_loads t = Raise e ->
  is_JSONDecodeError e = false ->
  result_of (_call_tool json_loads srv tool_name params self)
  = Raise (t_client_exit srv (t_session_exit srv e)).
Proof.
  intros (Hc & He & Hi) Hr Hcont Ht Hj Hcls.
  rewrite _call_tool_run, Hc, He, Hi, Hr.
  unfold result_of, and_then, parse_result. cbn [fst].
  rewrite Hcont, Ht, Hj, Hcls. reflexivity.
Qed.

Lemma other_decoder_exception_leaves_the_call_witness :
  result_of
    (_call_tool MainExamples.json_loads_bounded
       (Examples.server_replying
          (Examples.reply
             [Examples.TextContent MainExamples.deep_array_text]))
       "get_orion_configs" None Examples.client)
  = Raise
      (ExceptionGroup "unhandled errors in a TaskGroup"
         [ExceptionGroup "unhandled errors in a TaskGroup"
            [MainExamples.recursion_error]]).
Proof.
  apply (other_decoder_exception_leaves_the_call
           MainExamples.json_loads_bounded
           (Examples.server_replying
              (Examples.reply
                 [Examples.TextContent MainExamples.deep_array_text]))
           Examples.client "get_orion_configs" None
           (Examples.reply
              [Examples.TextContent MainExamples.deep_array_text])
           (Examples.TextContent MainExamples.deep_array_text) []
           MainExamples.deep_array_text).
  - repeat split.
  - reflexivity.
  - reflexivity.
  - reflexivity.
  - vm_compute. reflexivity.
  - reflexivity.
Defined.

(** ** What the callers see *)

(** X7.  The test the example scripts use to recognise an image,
    [isinstance(result, dict) and result.get("type") == "image"], holds
    of what a call returns in exactly two cases: the first block of the
    reply has [data] and no [text]; or it has a [text] whose JSON is
    itself a dict with [type] equal to ["image"].  A text that is not
    JSON and a reply returned whole never pass. *)
Theorem image_test_on_call_result
    json_loads srv self tool_name params r v :
  session_established srv (mcp_url self) ->
  t_call_tool srv tool_name (request_data params) = Return r ->
  result_of (_call_tool json_loads srv tool_name params self) = Return v ->
  (is_image_result v = true <->
   exists block rest,
     mcp.content r = block :: rest /\
     match mcp.text block with
     | Some t =>
         exists v', json_loads t = Return v' /\ is_image_result v' = true
     | None => hasattr (mcp.data block) = true
     end).
Proof.
  intros (Hc & He & Hi) Hr.
  rewrite _call_tool_run, Hc, He, Hi, Hr.
  unfold result_of, and_then, parse_result, leave_blocks, leave_block.
  cbn [fst].
  destruct (mcp.content r) as [|block rest] eqn:Hcont.
  - intros [= <-]. split; [discriminate|].
    intros (b & l & Hbl & _). discriminate.
  - destruct (mcp.text block) as [t|] eqn:Ht.
    + destruct (json_loads t) as [v'|e] eqn:Hj.
      * intros [= <-]. split.
        -- intros Himg. exists block, rest. split; [reflexivity|].
           rewrite Ht. exists v'. split; assumption.
        -- intros (b & l & [= <- <-] & Hb). rewrite Ht in Hb.
           destruct Hb as (v'' & Hj' & Himg). rewrite Hj in Hj'.
           injection Hj' as <-. exact Himg.
      * destruct (is_JSONDecodeError e); [|discriminate].
        intros [= <-]. split; [discriminate|].
        intros (b & l & [= <- <-] & Hb). rewrite Ht in Hb.
        destruct Hb as (v'' & Hj' & _). rewrite Hj in Hj'. discriminate.
    + destruct (mcp.data block) as [d|] eqn:Hd.
      * intros [= <-]. split.
        -- intros _. exists block, rest. split; [reflexivity|].
           rewrite Ht, Hd. reflexivity.
        -- intros _. reflexivity.
      * intros [= <-]. split; [discriminate|].
        intros (b & l & [= <- <-] & Hb). rewrite Ht, Hd in Hb.
        discriminate.
Qed.

Lemma image_test_on_call_result_witness :
  is_image_result
    (PyDict [("type", PyStr "image");
             ("data", PyStr "aGVsbG8=");
             ("mimeType", PyStr "image/png")]) = true
  <->
  exists block rest,
    mcp.content
      (Examples.reply [Examples.ImageContent "aGVsbG8=" "image/png"])
    = block :: rest /\
    match mcp.text block with
    | Some t =>
        exists v', Examples.json_loads t = Return v' /\
                   is_image_result v' = true
    | None => hasattr (mcp.data block) = true
    end.
Proof.
  apply (image_test_on_call_result Examples.json_loads
           (Examples.server_replying
              (Examples.reply [Examples.ImageContent "aGVsbG8=" "image/png"]))
           Examples.client "metrics_correlation" None
           (Examples.reply [Examples.ImageContent "aGVsbG8=" "image/png"])).
  - repeat split.
  - reflexivity.
  - reflexivity.
Defined.

(** ** The example run *)

Lemma requests_app (a b : list event) :
  requests (a ++ b) = requests a ++ requests b.
Proof. unfold requests. apply List.filter_app. Qed.

Lemma _call_tool_one_request json_loads srv tool_name params self :
  one_request_or_raises (EvCallTool tool_name (request_data params))
    (_call_tool json_loads srv tool_name params self).
Proof.
  unfold one_request_or_raises. rewrite _call_tool_run.
  destruct (t_connect srv (mcp_url self)) as [e|]; [right; eauto|].
  destruct (t_session_enter srv) as [e|]; [right; eauto|].
  destruct (t_initialize srv) as [e|]; [right; eauto|].
  left. reflexivity.
Qed.

Lemma list_tools_one_request srv self :
  one_request_or_raises EvListTools (list_tools srv self).
Proof.
  unfold one_request_or_raises. rewrite list_tools_run.
  destruct (t_connect srv (mcp_url self)) as [e|]; [right; eauto|].
  destruct (t_session_enter srv) as [e|]; [right; eauto|].
  destruct (t_initialize srv) as [e|]; [right; eauto|].
  left. reflexivity.
Qed.

(** Sequencing keeps the requests in order and stops at an exception. *)
Lemma bind_requests_prefix {A B : Type} (m : M A) (k : A -> M B)
    self req rest :
  one_request_or_raises req (m self) ->
  (forall a self', exists n, requests (trace_of (k a self')) = firstn n rest) ->
  exists n, requests (trace_of (bind m k self)) = firstn n (req :: rest).
Proof.
  intros Hm Hk. unfold one_request_or_raises, bind in *.
  destruct (m self) as [[o self1] tr1]. unfold trace_of, result_of in *.
  cbn [fst snd] in *.
  destruct o as [a|e].
  - destruct (Hk a self1) as [n Hn].
    destruct (k a self1) as [[o2 self2] tr2]. cbn [snd] in *.
    rewrite requests_app, Hn.
    destruct Hm as [Hone | [_ [e He]]]; [|discriminate].
    rewrite Hone. exists (S n). reflexivity.
  - cbn [snd]. destruct Hm as [Hone | [Hnone _]].
    + exists 1. rewrite Hone. reflexivity.
    + exists 0. rewrite Hnone. reflexivity.
Qed.

Lemma bind_pure_requests_prefix {A B : Type} (o : outcome A) (k : A -> M B)
    self rest :
  (forall a self', exists n, requests (trace_of (k a self')) = firstn n rest) ->
  exists n, requests (trace_of (bind (lift_outcome o) k self)) = firstn n rest.
Proof.
  intros Hk. unfold bind. destruct o as [a|e]; cbn.
  - destruct (Hk a self) as [n Hn].
    destruct (k a self) as [[o2 self2] tr2]. exists n. exact Hn.
  - exists 0. reflexivity.
Qed.

Lemma main_requests_prefix json_loads json_dumps srv :
  exists n,
    requests (trace_of (main json_loads json_dumps srv))
    = firstn n main_requests.
Proof.
  unfold main, main_body, main_requests.
  apply bind_requests_prefix; [apply list_tools_one_request|].
  intros tools_ self1.
  apply bind_requests_prefix;
    [apply (_call_tool_one_request json_loads (srv 1) "get_release_date"
              (Some [("version", PyStr "4.20")]))|].
  intros release_date self2.
  apply bind_requests_prefix;
    [apply (_call_tool_one_request json_loads (srv 2) "get_orion_configs"
              None)|].
  intros configs self3.
  apply bind_requests_prefix;
    [apply (_call_tool_one_request json_loads (srv 3) "get_orion_metrics"
              (Some [("config", PyStr "small-scale-udn-l3.yaml")]))|].
  intros metrics self4.
  apply bind_pure_requests_prefix.
  intros metrics_text self5.
  apply bind_requests_prefix;
    [apply (_call_tool_one_request json_loads (srv 4)
              "has_openshift_regressed"
              (Some [("version", PyStr "4.19"); ("lookback", PyStr "15")]))|].
  intros regressions self6.
  apply bind_requests_prefix;
    [apply (_call_tool_one_request json_loads (srv 5) "openshift_report_on"
              (Some [("versions", PyStr "4.19,4.20");
                     ("lookback", PyStr "15");
                     ("metric", PyStr "podReadyLatency_P99");
                     ("config", PyStr "small-scale-udn-l3.yaml");
                     ("options", PyStr "json")]))|].
  intros report self7. exists 0. reflexivity.
Qed.

Lemma bind_returns {A B : Type} (m : M A) (k : A -> M B) self a self1 tr1 :
  m self = (Return a, self1, tr1) ->
  bind m k self =
  let '(o, self2, tr2) := k a self1 in (o, self2, tr1 ++ tr2).
Proof. intros Hm. unfold bind. rewrite Hm. reflexivity. Qed.

Lemma _call_tool_returns json_loads srv tool_name params self url v :
  mcp_url self = url ->
  session_established srv url ->
  and_then (t_call_tool srv tool_name (request_data params))
    (parse_result json_loads) = Return v ->
  _call_tool json_loads srv tool_name params self =
  (Return v, with_session_id self (t_get_session_id srv),
   session_trace url (t_get_session_id srv)
     (EvCallTool tool_name (request_data params))).
Proof.
  intros <- (Hc & He & Hi) Hv.
  rewrite _call_tool_run, Hc, He, Hi, Hv. reflexivity.
Qed.

Lemma list_tools_returns srv self url tl :
  mcp_url self = url ->
  session_established srv url ->
  t_list_tools srv = Return tl ->
  list_tools srv self =
  (Return (map tool_descriptor (tools tl)),
   with_session_id self (t_get_session_id srv),
   session_trace url (t_get_session_id srv) EvListTools).
Proof.
  intros <- (Hc & He & Hi) Hr.
  rewrite list_tools_run, Hc, He, Hi, Hr. reflexivity.
Qed.

(** The run of [main] up to and including [get_orion_metrics], when
    those four steps succeed. *)
Lemma main_first_four json_loads srv tl v1 v2 v3
    (k : pyval -> M unit) :
  (forall n, n < 4 ->
     session_established (srv n) "http://localhost:3030/mcp") ->
  t_list_tools (srv 0) = Return tl ->
  and_then
    (t_call_tool (srv 1) "get_release_date"
       (PyDict [("params", PyDict [("version", PyStr "4.20")])]))
    (parse_result json_loads) = Return v1 ->
  and_then
    (t_call_tool (srv 2) "get_orion_configs" (PyDict [("params", PyDict [])]))
    (parse_result json_loads) = Return v2 ->
  and_then
    (t_call_tool (srv 3) "get_orion_metrics"
       (PyDict [("params",
                 PyDict [("config", PyStr "small-scale-udn-l3.yaml")])]))
    (parse_result json_loads) = Return v3 ->
  (let* tools := list_tools (srv 0) in
   let* release_date := get_release_date json_loads (srv 1) "4.20" in
   let* configs := get_orion_configs json_loads (srv 2) in
   let* metrics :=
     get_orion_metrics json_loads (srv 3) "small-scale-udn-l3.yaml" in
   k metrics) (__init__ "http://localhost:3030")
  =
  let '(o, self', tr) :=
    k v3 {| server_url := "http://localhost:3030";
            mcp_url := "http://localhost:3030/mcp";
            session_id := t_get_session_id (srv 3) |} in
  (o, self',
   concat
     (zip_with
        (fun n req =>
           session_trace "http://localhost:3030/mcp"
             (t_get_session_id (srv n)) req)
        (seq 0 4) main_requests)
   ++ tr).
Proof.
  intros Hs Htl H1 H2 H3.
  pose (c0 := __init__ "http://localhost:3030").
  pose (c1 := with_session_id c0 (t_get_session_id (srv 0))).
  pose (c2 := with_session_id c1 (t_get_session_id (srv 1))).
  pose (c3 := with_session_id c2 (t_get_session_id (srv 2))).
  rewrite (bind_returns _ _ _ _ _ _
             (list_tools_returns (srv 0) c0 "http://localhost:3030/mcp" tl
                eq_refl (Hs 0 ltac:(lia)) Htl)).
  unfold get_release_date.
  rewrite (bind_returns _ _ _ _ _ _
             (_call_tool_returns json_loads (srv 1) "get_release_date"
                (Some [("version", PyStr "4.20")]) c1
                "http://localhost:3030/mcp" v1
                eq_refl (Hs 1 ltac:(lia)) H1)).
  unfold get_orion_configs.
  rewrite (bind_returns _ _ _ _ _ _
             (_call_tool_returns json_loads (srv 2) "get_orion_configs"
                None c2 "http://localhost:3030/mcp" v2
                eq_refl (Hs 2 ltac:(lia)) H2)).
  unfold get_orion_metrics.
  rewrite (bind_returns _ _ _ _ _ _
             (_call_tool_returns json_loads (srv 3) "get_orion_metrics"
                (Some [("config", PyStr "small-scale-udn-l3.yaml")]) c3
                "http://localhost:3030/mcp" v3
                eq_refl (Hs 3 ltac:(lia)) H3)).
  subst c0 c1 c2 c3.
  change (with_session_id
            (with_session_id
               (with_session_id
                  (with_session_id (__init__ "http://localhost:3030")
                     (t_get_session_id (srv 0)))
                  (t_get_session_id (srv 1)))
               (t_get_session_id (srv 2)))
            (t_get_session_id (srv 3)))
    with {| server_url := "http://localhost:3030";
            mcp_url := "http://localhost:3030/mcp";
            session_id := t_get_session_id (srv 3) |}.
  destruct (k v3 _) as [[o self'] tr].
  unfold main_requests, session_trace. cbn.
  reflexivity.
Qed.

Lemma bind_lift_return {A B : Type} (a : A) (k : A -> M B) self :
  bind (lift_outcome (Return a)) k self = k a self.
Proof. unfold bind. cbn. destruct (k a self) as [[o s] t]. reflexivity. Qed.

Lemma bind_lift_raise {A B : Type} (e : exn) (k : A -> M B) self :
  bind (lift_outcome (Raise e)) k self = (Raise e, self, []).
Proof. reflexivity. Qed.

(** X9.  When every handshake succeeds, every request is answered, every
    reply decodes and the metrics can be dumped, [main] runs six sessions
    one after the other, each opened, used for one request and closed
    before the next is opened, all against [http://localhost:3030/mcp];
    it returns normally and leaves in [session_id] the id of the sixth
    session. *)
Theorem main_runs_six_sessions
    json_loads json_dumps srv tl v1 v2 v3 v4 v5 text :
  (forall n, n < 6 ->
     session_established (srv n) "http://localhost:3030/mcp") ->
  t_list_tools (srv 0) = Return tl ->
  and_then
    (t_call_tool (srv 1) "get_release_date"
       (PyDict [("params", PyDict [("version", PyStr "4.20")])]))
    (parse_result json_loads) = Return v1 ->
  and_then
    (t_call_tool (srv 2) "get_orion_configs" (PyDict [("params", PyDict [])]))
    (parse_result json_loads) = Return v2 ->
  and_then
    (t_call_tool (srv 3) "get_orion_metrics"
       (PyDict [("params",
                 PyDict [("config", PyStr "small-scale-udn-l3.yaml")])]))
    (parse_result json_loads) = Return v3 ->
  json_dumps v3 = Return text ->
  and_then
    (t_call_tool (srv 4) "has_openshift_regressed"
       (PyDict [("params",
                 PyDict [("version", PyStr "4.19");
                         ("lookback", PyStr "15")])]))
    (parse_result json_loads) = Return v4 ->
  and_then
    (t_call_tool (srv 5) "openshift_report_on"
       (PyDict [("params",
                 PyDict [("versions", PyStr "4.19,4.20");
                         ("lookback", PyStr "15");
                         ("metric", PyStr "podReadyLatency_P99");
                         ("config", PyStr "small-scale-udn-l3.yaml");
                         ("options", PyStr "json")])]))
    (parse_result json_loads) = Return v5 ->
  main json_loads json_dumps srv =
  (Return tt,
   {| server_url := "http://localhost:3030";
      mcp_url := "http://localhost:3030/mcp";
      session_id := t_get_session_id (srv 5) |},
   main_trace srv).
Proof.
  intros Hs Htl H1 H2 H3 Hd H4 H5.
  unfold main, main_body.
  rewrite (main_first_four json_loads srv tl v1 v2 v3 _
             (fun n Hn => Hs n ltac:(lia)) Htl H1 H2 H3).
  rewrite Hd, bind_lift_return.
  pose (c4 := {| server_url := "http://localhost:3030";
                 mcp_url := "http://localhost:3030/mcp";
                 session_id := t_get_session_id (srv 3) |}).
  pose (c5 := with_session_id c4 (t_get_session_id (srv 4))).
  unfold has_openshift_regressed.
  rewrite (bind_returns _ _ _ _ _ _
             (_call_tool_returns json_loads (srv 4) "has_openshift_regressed"
                (Some [("version", PyStr "4.19"); ("lookback", PyStr "15")])
                c4 "http://localhost:3030/mcp" v4
                eq_refl (Hs 4 ltac:(lia)) H4)).
  unfold openshift_report_on.
  rewrite (bind_returns _ _ _ _ _ _
             (_call_tool_returns json_loads (srv 5) "openshift_report_on"
                (Some (openshift_report_on_params "4.19,4.20" "15" None
                         "podReadyLatency_P99" "small-scale-udn-l3.yaml"
                         "json"))
                c5 "http://localhost:3030/mcp" v5
                eq_refl (Hs 5 ltac:(lia)) H5)).
  reflexivity.
Qed.

Lemma main_runs_six_sessions_witness :
  main Examples.json_loads MainExamples.json_dumps MainExamples.date_server
  = (Return tt,
     {| server_url := "http://localhost:3030";
        mcp_url := "http://localhost:3030/mcp";
        session_id := Some "session-1" |},
     main_trace MainExamples.date_server).
Proof.
  apply (main_runs_six_sessions Examples.json_loads MainExamples.json_dumps
           MainExamples.date_server
           {| tools := [Examples.tool_A; Examples.tool_B;
                        Examples.tool_A; Examples.tool_C] |}
           (PyStr "2024-06-01") (PyStr "2024-06-01") (PyStr "2024-06-01")
           (PyStr "2024-06-01") (PyStr "2024-06-01")
           (Examples.dquote ++ "2024-06-01" ++ Examples.dquote)%string);
    try reflexivity.
  intros n _. repeat split.
Defined.

(** X10.  When the first four steps succeed and [json.dumps] raises on
    what [get_orion_metrics] returned, [main] raises that exception: the
    four sessions so far were opened and closed, and the requests for
    [has_openshift_regressed] and [openshift_report_on] are never sent. *)
Theorem main_stops_when_metrics_cannot_be_dumped
    json_loads json_dumps srv tl v1 v2 v3 e :
  (forall n, n < 4 ->
     session_established (srv n) "http://localhost:3030/mcp") ->
  t_list_tools (srv 0) = Return tl ->
  and_then
    (t_call_tool (srv 1) "get_release_date"
       (PyDict [("params", PyDict [("version", PyStr "4.20")])]))
    (parse_result json_loads) = Return v1 ->
  and_then
    (t_call_tool (srv 2) "get_orion_configs" (PyDict [("params", PyDict [])]))
    (parse_result json_loads) = Return v2 ->
  and_then
    (t_call_tool (srv 3) "get_orion_metrics"
       (PyDict [("params",
                 PyDict [("config", PyStr "small-scale-udn-l3.yaml")])]))
    (parse_result json_loads) = Return v3 ->
  json_dumps v3 = Raise e ->
  result_of (main json_loads json_dumps srv) = Raise e /\
  requests (trace_of (main json_loads json_dumps srv))
  = firstn 4 main_requests /\
  session_id (self_of (main json_loads json_dumps srv))
  = t_get_session_id (srv 3).
Proof.
  intros Hs Htl H1 H2 H3 Hd.
  unfold main, main_body.
  rewrite (main_first_four json_loads srv tl v1 v2 v3 _ Hs Htl H1 H2 H3).
  rewrite Hd, bind_lift_raise.
  repeat split.
Qed.

(** A reply with no content block is returned whole, and [json.dumps]
    cannot serialise a [CallToolResult]. *)
Lemma main_stops_when_metrics_cannot_be_dumped_witness :
  result_of
    (main Examples.json_loads MainExamples.json_dumps
       (fun _ => Examples.server_replying (Examples.reply [])))
  = Raise (Exn "TypeError"
             "Object of type CallToolResult is not JSON serializable")
  /\
  requests
    (trace_of
       (main Examples.json_loads MainExamples.json_dumps
          (fun _ => Examples.server_replying (Examples.reply []))))
  = firstn 4 main_requests
  /\
  session_id
    (self_of
       (main Examples.json_loads MainExamples.json_dumps
          (fun _ => Examples.server_replying (Examples.reply []))))
  = Some "session-1".
Proof.
  apply (main_stops_when_metrics_cannot_be_dumped Examples.json_loads
           MainExamples.json_dumps
           (fun _ => Examples.server_replying (Examples.reply []))
           {| tools := [Examples.tool_A; Examples.tool_B;
                        Examples.tool_A; Examples.tool_C] |}
           (PyCallToolResult (Examples.reply []))
           (PyCallToolResult (Examples.reply []))
           (PyCallToolResult (Examples.reply [])));
    try reflexivity.
  intros n _. repeat split.
Defined.

(** ** What a call reads of the client *)

(** X11.  The methods read one attribute of the client, [mcp_url].  Two
    clients with the same [mcp_url] get the same result and cause the
    same events, whatever their [server_url] and [session_id]: assigning
    to [server_url] after construction does not redirect the calls, and
    the id of an earlier session plays no part in the next one. *)
Theorem calls_read_only_mcp_url json_loads srv self1 self2 :
  mcp_url self1 = mcp_url self2 ->
  (forall tool_name params,
     result_of (_call_tool json_loads srv tool_name params self1)
     = result_of (_call_tool json_loads srv tool_name params self2) /\
     trace_of (_call_tool json_loads srv tool_name params self1)
     = trace_of (_call_tool json_loads srv tool_name params self2))
  /\
  (result_of (list_tools srv self1) = result_of (list_tools srv self2) /\
   trace_of (list_tools srv self1) = trace_of (list_tools srv self2))
  /\
  (result_of (list_resources srv self1)
   = result_of (list_resources srv self2) /\
   trace_of (list_resources srv self1)
   = trace_of (list_resources srv self2)).
Proof.
  intros Hurl. split; [|split].
  - intros tool_name params. rewrite !_call_tool_run, Hurl.
    destruct (t_connect srv (mcp_url self2)); [split; reflexivity|].
    destruct (t_session_enter srv); [split; reflexivity|].
    destruct (t_initialize srv); split; reflexivity.
  - rewrite !list_tools_run, Hurl.
    destruct (t_connect srv (mcp_url self2)); [split; reflexivity|].
    destruct (t_session_enter srv); [split; reflexivity|].
    destruct (t_initialize srv); split; reflexivity.
  - rewrite !list_resources_run, Hurl.
    destruct (t_connect srv (mcp_url self2)); [split; reflexivity|].
    destruct (t_session_enter srv); [split; reflexivity|].
    destruct (t_initialize srv); split; reflexivity.
Qed.

(** A client whose [server_url] was reassigned still talks to the
    endpoint computed when it was built. *)
Lemma calls_read_only_mcp_url_witness :
  trace_of
    (list_tools (Examples.server_replying (Examples.reply []))
       {| server_url := "http://other-host:3030";
          mcp_url := "http://localhost:3030/mcp";
          session_id := Some "session-0" |})
  = trace_of
      (list_tools (Examples.server_replying (Examples.reply []))
         Examples.client).
Proof.
  pose proof (calls_read_only_mcp_url Examples.json_loads
                (Examples.server_replying (Examples.reply []))
                {| server_url := "http://other-host:3030";
                   mcp_url := "http://localhost:3030/mcp";
                   session_id := Some "session-0" |}
                Examples.client eq_refl) as (_ & (_ & Htr) & _).
  exact Htr.
Defined.

(** ** When the example run returns *)

Lemma bind_returns_inv {A B : Type} (m : M A) (k : A -> M B) self b :
  result_of (bind m k self) = Return b ->
  exists a self1 tr1,
    m self = (Return a, self1, tr1) /\ result_of (k a self1) = Return b.
Proof.
  unfold bind, result_of. destruct (m self) as [[o self1] tr1].
  destruct o as [a|e]; [|discriminate].
  destruct (k a self1) as [[o2 self2] tr2] eqn:Hk. cbn.
  intros ->. exists a, self1, tr1. rewrite Hk. split; reflexivity.
Qed.

Lemma leave_blocks_returns_inv {A : Type} srv (o : outcome A) a :
  leave_blocks srv o = Return a -> o = Return a.
Proof. destruct o; [intros [= ->]; reflexivity | discriminate]. Qed.

Lemma _call_tool_returns_inv json_loads srv tool_name params self v self1 tr1 :
  _call_tool json_loads srv tool_name params self = (Return v, self1, tr1) ->
  session_established srv (mcp_url self) /\
  and_then (t_call_tool srv tool_name (request_data params))
    (parse_result json_loads) = Return v /\
  self1 = with_session_id self (t_get_session_id srv).
Proof.
  rewrite _call_tool_run. unfold session_established.
  destruct (t_connect srv (mcp_url self)); [discriminate|].
  destruct (t_session_enter srv); [discriminate|].
  destruct (t_initialize srv); [discriminate|].
  intros [= Ho <- _]. apply leave_blocks_returns_inv in Ho. auto.
Qed.

Lemma list_tools_returns_inv srv self ds self1 tr1 :
  list_tools srv self = (Return ds, self1, tr1) ->
  session_established srv (mcp_url self) /\
  (exists tl, t_list_tools srv = Return tl) /\
  self1 = with_session_id self (t_get_session_id srv).
Proof.
  rewrite list_tools_run. unfold session_established.
  destruct (t_connect srv (mcp_url self)); [discriminate|].
  destruct (t_session_enter srv); [discriminate|].
  destruct (t_initialize srv); [discriminate|].
  intros [= Ho <- _]. apply leave_blocks_returns_inv in Ho.
  destruct (t_list_tools srv) as [tl|e]; [|discriminate].
  repeat split. exists tl. reflexivity.
Qed.

(** X8.  Whatever the servers, the decoder and [json.dumps] do, the
    requests [main] sends are an initial part of one fixed list of six:
    it never sends anything else, never out of order, never the same
    request twice.  And [main] returns normally only if every one of its
    seven steps did: all six handshakes succeeded, all six requests were
    answered, the five replies decoded, and [json.dumps] returned on the
    metrics; a step that raises is never passed over. *)
Theorem main_sends_a_prefix_and_returns_only_on_success
    json_loads json_dumps srv :
  (exists n,
     requests (trace_of (main json_loads json_dumps srv))
     = firstn n main_requests)
  /\
  (result_of (main json_loads json_dumps srv) = Return tt ->
   (forall n, n < 6 ->
      session_established (srv n) "http://localhost:3030/mcp") /\
   (exists tl, t_list_tools (srv 0) = Return tl) /\
   exists v1 v2 v3 v4 v5 text,
     and_then
       (t_call_tool (srv 1) "get_release_date"
          (PyDict [("params", PyDict [("version", PyStr "4.20")])]))
       (parse_result json_loads) = Return v1 /\
     and_then
       (t_call_tool (srv 2) "get_orion_configs"
          (PyDict [("params", PyDict [])]))
       (parse_result json_loads) = Return v2 /\
     and_then
       (t_call_tool (srv 3) "get_orion_metrics"
          (PyDict [("params",
                    PyDict [("config", PyStr "small-scale-udn-l3.yaml")])]))
       (parse_result json_loads) = Return v3 /\
     json_dumps v3 = Return text /\
     and_then
       (t_call_tool (srv 4) "has_openshift_regressed"
          (PyDict [("params",
                    PyDict [("version", PyStr "4.19");
                            ("lookback", PyStr "15")])]))
       (parse_result json_loads) = Return v4 /\
     and_then
       (t_call_tool (srv 5) "openshift_report_on"
          (PyDict [("params",
                    PyDict [("versions", PyStr "4.19,4.20");
                            ("lookback", PyStr "15");
                            ("metric", PyStr "podReadyLatency_P99");
                            ("config", PyStr "small-scale-udn-l3.yaml");
                            ("options", PyStr "json")])]))
       (parse_result json_loads) = Return v5).
Proof.
  split; [apply main_requests_prefix|].
  unfold main, main_body. intros H.
  apply bind_returns_inv in H. destruct H as (ds & c1 & t0 & H0 & H).
  apply list_tools_returns_inv in H0. destruct H0 as (E0 & Htl & ->).
  unfold get_release_date in H.
  apply bind_returns_inv in H. destruct H as (v1 & c2 & t1 & H1 & H).
  apply _call_tool_returns_inv in H1. destruct H1 as (E1 & H1 & ->).
  unfold get_orion_configs in H.
  apply bind_returns_inv in H. destruct H as (v2 & c3 & t2 & H2 & H).
  apply _call_tool_returns_inv in H2. destruct H2 as (E2 & H2 & ->).
  unfold get_orion_metrics in H.
  apply bind_returns_inv in H. destruct H as (v3 & c4 & t3 & H3 & H).
  apply _call_tool_returns_inv in H3. destruct H3 as (E3 & H3 & ->).
  apply bind_returns_inv in H. destruct H as (text & c5 & t4 & Hd & H).
  destruct (json_dumps v3) as [text'|e] eqn:Hdumps; [|discriminate].
  injection Hd as -> <- _.
  unfold has_openshift_regressed in H.
  apply bind_returns_inv in H. destruct H as (v4 & c6 & t5 & H4 & H).
  apply _call_tool_returns_inv in H4. destruct H4 as (E4 & H4 & ->).
  unfold openshift_report_on in H.
  apply bind_returns_inv in H. destruct H as (v5 & c7 & t6 & H5 & _).
  apply _call_tool_returns_inv in H5. destruct H5 as (E5 & H5 & _).
  split; [|split; [exact Htl|]].
  - intros n Hn.
    destruct n as [|[|[|[|[|[|n]]]]]]; [assumption..|lia].
  - exists v1, v2, v3, v4, v5, text. repeat split; assumption.
Qed.
